(** * Order / payment reconciliation core: a shallow embedding

    The development follows the JavaScript sources of the backend:

    - [models/Dish.js]      the functions of the prototype literal that
                            the order handlers name ([decreaseStock],
                            [increaseStock], [hasStock],
                            [calculateTotalPrice]);
    - the Order model       [generateOrderNo], the [beforeCreate] hook,
                            the queries, and [paySuccess] and [cancel] of
                            the prototype literal;
    - the User model        [calculateUserLevel], the [beforeUpdate]
                            hook, and [addPoints], [usePoints], [signIn],
                            [updateSpent] of the prototype literal;
    - [services/paymentService.js]  [generateSign], [verifySign],
                            [handlePaymentNotify], [queryOrder], [refund];
    - [routes/orders.js], [routes/payment.js], [routes/users.js]
                            the request handlers.

    Conventions of the embedding.

    - Each model file ends with an assignment [Model.prototype = { ... }].
      [sequelize.define] returns a class; the [prototype] property of a
      class is not writable, and no file of the repository is in strict
      mode, so the assignment is ignored.  An instance that a query
      returns has none of the functions of the literal: a call
      [instance.m(...)] throws a TypeError (see [call_missing]).  The
      functions are embedded under their names as what the literal
      holds, not as what an instance does.
    - JavaScript numbers that hold money are rationals ([Q]) and sums
      and differences of them are exact; a product that the code rounds
      ([fmul]) is a parameter.  Integers (stock, points, identifiers,
      timestamps in milliseconds) are [Z].
    - A column read from the database has a value of its declared type
      (DECIMAL: a number, DATE: a point in time, ENUM: one of its
      constants); how the driver represents it, and the rounding of a
      DECIMAL column on write, are outside the model.
    - One call reads the clock once: every [new Date()] and [Date.now()]
      of a call is the argument [now].
    - A model instance ([this]) is a record that the method mutates in place
      and then writes back with [save]; a method therefore runs in a state
      monad whose state is the pair of the instance and the database.
    - [throw] is the error branch of the monad; the state at the moment of
      the throw is kept, as in JavaScript.
    - The MD5 digest, the XML parser, the environment variables, the
      product of two doubles, the draws of [Math.random()] and the
      answers of the payment gateway are parameters.  Logging is left
      out. *)

From Stdlib Require Import Ascii ZArith QArith Qround Qminmax Lia.
From Stdlib Require Import Lqa.
From stdpp Require Import base option list gmap strings sorting pretty.

Local Open Scope Z_scope.

(** ** JavaScript values that occur in a gateway parameter object *)

Inductive JsVal :=
  | VStr (s : string)
  | VNum (n : Z)
  | VNull
  | VUndef.

#[global] Instance JsVal_eq_dec : EqDecision JsVal.
Proof. solve_decision. Defined.

(** Template-literal conversion [`${v}`]. *)
Definition js_to_string (v : JsVal) : string :=
  match v with
  | VStr s => s
  | VNum n => pretty n
  | VNull => "null"
  | VUndef => "undefined"
  end.

(** [v !== ''] *)
Definition strict_ne_empty (v : JsVal) : bool :=
  bool_decide (v ≠ VStr "").

(** [v != null] (loose comparison: false for [null] and [undefined]). *)
Definition loose_ne_null (v : JsVal) : bool :=
  match v with
  | VNull | VUndef => false
  | _ => true
  end.

(** A parameter object: string keys, at most one value per key. *)
Abbreviation Params := (gmap string JsVal).

(** [params[key]]: a missing property reads as [undefined]. *)
Definition prop (params : Params) (key : string) : JsVal :=
  default VUndef (params !! key).

(** Truthiness, and [a || b]. *)
Definition js_truthy (v : JsVal) : bool :=
  match v with
  | VStr s => bool_decide (s ≠ "")
  | VNum n => bool_decide (n ≠ 0)
  | VNull | VUndef => false
  end.

Definition js_or (a b : JsVal) : JsVal := if js_truthy a then a else b.

(** ** Errors thrown by the code

    Each constructor stands for one [throw new Error(...)] of the sources
    (or for an exception raised by a collaborator). *)

Inductive error :=
  | InsufficientStock        (* Dish.decreaseStock *)
  | InvalidStateTransition   (* Order lifecycle methods: wrong order status *)
  | InsufficientPoints       (* User.usePoints *)
  | AlreadySignedInToday     (* User.signIn *)
  | SignatureMismatch        (* handlePaymentNotify: signature check *)
  | PaymentFailed (msg : JsVal)   (* return_code / result_code not SUCCESS *)
  | RefundFailed (msg : JsVal)    (* refund answer not SUCCESS *)
  | GatewayUnavailable       (* the HTTP call itself failed *)
  | UniqueConstraintError    (* insert of a duplicate in a unique column *)
  | ValidationError          (* insert without a value for a column that is not null *)
  | InvalidWhereValue        (* query with [undefined] as the value of a condition *)
  | TypeError.               (* property access on null, call of [undefined] *)

#[global] Instance error_eq_dec : EqDecision error.
Proof. solve_decision. Defined.

Inductive result (A : Type) :=
  | Ok (a : A)
  | Throw (e : error).
Arguments Ok {A} a.
Arguments Throw {A} e.

(** ** The monad of stateful code that may throw *)

Definition M (S A : Type) : Type := S → result A * S.

#[global] Instance M_ret {S} : MRet (M S) := λ A a s, (Ok a, s).
#[global] Instance M_bind {S} : MBind (M S) := λ A B f m s,
  match m s with
  | (Ok a, s') => f a s'
  | (Throw e, s') => (Throw e, s')
  end.

Definition throw {S A} (e : error) : M S A := λ s, (Throw e, s).
Definition get {S} : M S S := λ s, (Ok s, s).
Definition put {S} (s : S) : M S unit := λ _, (Ok (), s).
Definition modify {S} (f : S → S) : M S unit := λ s, (Ok (), f s).

(** [try { m } catch (error) { h error }] *)
Definition try_catch {S A} (m : M S A) (h : error → M S A) : M S A := λ s,
  match m s with
  | (Ok a, s') => (Ok a, s')
  | (Throw e, s') => h e s'
  end.

(** Calling a method on a local instance [this] from code that only has the
    database as state.  The caller gets the returned value and the mutated
    instance; when the method throws, the database changes made so far
    stay. *)
Definition call {T D A} (m : M (T * D) A) (this : T) : M D (A * T) := λ d,
  match m (this, d) with
  | (Ok a, (this', d')) => (Ok (a, this'), d')
  | (Throw e, (_, d')) => (Throw e, d')
  end.

(** ** Functions of a prototype literal

    [Dish.prototype = { ... }], and the same for [Order], [User] and
    [Merchant], assigns to a property that is not writable, outside
    strict mode: nothing happens.  The functions of the literal are not
    methods of the instances that the queries return: [instance.m] is
    [undefined], and the call [instance.m(...)] throws a TypeError
    before a statement of [m] runs.  [meant] is the function of the
    literal that the call names; [call_missing] is the call of one that
    works on the instance and the database, [apply_missing] the call of
    one that only computes a value. *)
Definition call_missing {T D A} (meant : M (T * D) A) (this : T) : M D (A * T) :=
  throw TypeError.

Definition apply_missing {D A} (meant : A) : M D A :=
  throw TypeError.

(** Reading and assigning the instance inside a method. *)
Definition this_ {T D} : M (T * D) T := λ s, (Ok (fst s), s).
Definition assign {T D} (f : T → T) : M (T * D) unit :=
  λ s, (Ok (), (f (fst s), snd s)).
Definition db_modify {T D} (f : T → D → D) : M (T * D) unit :=
  λ s, (Ok (), (fst s, f (fst s) (snd s))).

(** ** The data model (the columns that the modelled code reads or writes) *)

(** [Dish.stock]: a count, or [-1] for unlimited. *)
Record Dish := mkDish {
  d_id : Z;
  price : Q;
  stock : Z;
  soldCount : Z;
}.

Definition set_stock (v : Z) (d : Dish) : Dish :=
  mkDish (d_id d) (price d) v (soldCount d).
Definition set_soldCount (v : Z) (d : Dish) : Dish :=
  mkDish (d_id d) (price d) (stock d) v.

Inductive PayMethod := wechat | alipay | balance | points_pay.
Inductive PayStatus := unpaid | paid | pay_refunded | partial_refunded.
Inductive OrderStatus :=
  | pending | confirmed | preparing | ready_ | delivering | completed
  | cancelled | refunded.
Inductive DeliveryStatus :=
  | dl_pending | dl_assigned | dl_picked | dl_delivering | dl_delivered.

#[global] Instance PayMethod_eq_dec : EqDecision PayMethod.
Proof. solve_decision. Defined.
#[global] Instance PayStatus_eq_dec : EqDecision PayStatus.
Proof. solve_decision. Defined.
#[global] Instance OrderStatus_eq_dec : EqDecision OrderStatus.
Proof. solve_decision. Defined.
#[global] Instance DeliveryStatus_eq_dec : EqDecision DeliveryStatus.
Proof. solve_decision. Defined.

Record Order := mkOrder {
  o_id : Z;
  orderNo : string;
  o_userId : Z;
  merchantId : Z;
  subtotal : Q;
  deliveryFee : Q;
  discount : Q;
  total : Q;
  payAmount : Q;
  payMethod : option PayMethod;
  payStatus : PayStatus;
  payTime : option Z;
  status : OrderStatus;
  deliveryStatus : DeliveryStatus;
  deliveryTaskId : option Z;
  actualDeliveryTime : option Z;
  cancelReason : option string;
  cancelTime : option Z;
  refundReason : option string;
  refundTime : option Z;
  refundAmount : Q;
  pointsEarned : Z;
  pointsUsed : Z;
  couponId : option Z;
  couponAmount : Q;
}.

(** One setter per column that some method assigns. *)
Definition set_orderNo (v : string) (o : Order) : Order :=
  mkOrder (o_id o) v (o_userId o) (merchantId o) (subtotal o)
    (deliveryFee o) (discount o) (total o) (payAmount o) (payMethod o)
    (payStatus o) (payTime o) (status o) (deliveryStatus o)
    (deliveryTaskId o) (actualDeliveryTime o) (cancelReason o) (cancelTime o)
    (refundReason o) (refundTime o) (refundAmount o) (pointsEarned o)
    (pointsUsed o) (couponId o) (couponAmount o).
Definition set_o_id (v : Z) (o : Order) : Order :=
  mkOrder v (orderNo o) (o_userId o) (merchantId o) (subtotal o)
    (deliveryFee o) (discount o) (total o) (payAmount o) (payMethod o)
    (payStatus o) (payTime o) (status o) (deliveryStatus o)
    (deliveryTaskId o) (actualDeliveryTime o) (cancelReason o) (cancelTime o)
    (refundReason o) (refundTime o) (refundAmount o) (pointsEarned o)
    (pointsUsed o) (couponId o) (couponAmount o).
Definition set_payMethod (v : option PayMethod) (o : Order) : Order :=
  mkOrder (o_id o) (orderNo o) (o_userId o) (merchantId o) (subtotal o)
    (deliveryFee o) (discount o) (total o) (payAmount o) v
    (payStatus o) (payTime o) (status o) (deliveryStatus o)
    (deliveryTaskId o) (actualDeliveryTime o) (cancelReason o) (cancelTime o)
    (refundReason o) (refundTime o) (refundAmount o) (pointsEarned o)
    (pointsUsed o) (couponId o) (couponAmount o).
Definition set_payStatus (v : PayStatus) (o : Order) : Order :=
  mkOrder (o_id o) (orderNo o) (o_userId o) (merchantId o) (subtotal o)
    (deliveryFee o) (discount o) (total o) (payAmount o) (payMethod o)
    v (payTime o) (status o) (deliveryStatus o)
    (deliveryTaskId o) (actualDeliveryTime o) (cancelReason o) (cancelTime o)
    (refundReason o) (refundTime o) (refundAmount o) (pointsEarned o)
    (pointsUsed o) (couponId o) (couponAmount o).
Definition set_payTime (v : option Z) (o : Order) : Order :=
  mkOrder (o_id o) (orderNo o) (o_userId o) (merchantId o) (subtotal o)
    (deliveryFee o) (discount o) (total o) (payAmount o) (payMethod o)
    (payStatus o) v (status o) (deliveryStatus o)
    (deliveryTaskId o) (actualDeliveryTime o) (cancelReason o) (cancelTime o)
    (refundReason o) (refundTime o) (refundAmount o) (pointsEarned o)
    (pointsUsed o) (couponId o) (couponAmount o).
Definition set_status (v : OrderStatus) (o : Order) : Order :=
  mkOrder (o_id o) (orderNo o) (o_userId o) (merchantId o) (subtotal o)
    (deliveryFee o) (discount o) (total o) (payAmount o) (payMethod o)
    (payStatus o) (payTime o) v (deliveryStatus o)
    (deliveryTaskId o) (actualDeliveryTime o) (cancelReason o) (cancelTime o)
    (refundReason o) (refundTime o) (refundAmount o) (pointsEarned o)
    (pointsUsed o) (couponId o) (couponAmount o).
Definition set_deliveryStatus (v : DeliveryStatus) (o : Order) : Order :=
  mkOrder (o_id o) (orderNo o) (o_userId o) (merchantId o) (subtotal o)
    (deliveryFee o) (discount o) (total o) (payAmount o) (payMethod o)
    (payStatus o) (payTime o) (status o) v
    (deliveryTaskId o) (actualDeliveryTime o) (cancelReason o) (cancelTime o)
    (refundReason o) (refundTime o) (refundAmount o) (pointsEarned o)
    (pointsUsed o) (couponId o) (couponAmount o).
Definition set_deliveryTaskId (v : option Z) (o : Order) : Order :=
  mkOrder (o_id o) (orderNo o) (o_userId o) (merchantId o) (subtotal o)
    (deliveryFee o) (discount o) (total o) (payAmount o) (payMethod o)
    (payStatus o) (payTime o) (status o) (deliveryStatus o)
    v (actualDeliveryTime o) (cancelReason o) (cancelTime o)
    (refundReason o) (refundTime o) (refundAmount o) (pointsEarned o)
    (pointsUsed o) (couponId o) (couponAmount o).
Definition set_actualDeliveryTime (v : option Z) (o : Order) : Order :=
  mkOrder (o_id o) (orderNo o) (o_userId o) (merchantId o) (subtotal o)
    (deliveryFee o) (discount o) (total o) (payAmount o) (payMethod o)
    (payStatus o) (payTime o) (status o) (deliveryStatus o)
    (deliveryTaskId o) v (cancelReason o) (cancelTime o)
    (refundReason o) (refundTime o) (refundAmount o) (pointsEarned o)
    (pointsUsed o) (couponId o) (couponAmount o).
Definition set_cancelReason (v : option string) (o : Order) : Order :=
  mkOrder (o_id o) (orderNo o) (o_userId o) (merchantId o) (subtotal o)
    (deliveryFee o) (discount o) (total o) (payAmount o) (payMethod o)
    (payStatus o) (payTime o) (status o) (deliveryStatus o)
    (deliveryTaskId o) (actualDeliveryTime o) v (cancelTime o)
    (refundReason o) (refundTime o) (refundAmount o) (pointsEarned o)
    (pointsUsed o) (couponId o) (couponAmount o).
Definition set_cancelTime (v : option Z) (o : Order) : Order :=
  mkOrder (o_id o) (orderNo o) (o_userId o) (merchantId o) (subtotal o)
    (deliveryFee o) (discount o) (total o) (payAmount o) (payMethod o)
    (payStatus o) (payTime o) (status o) (deliveryStatus o)
    (deliveryTaskId o) (actualDeliveryTime o) (cancelReason o) v
    (refundReason o) (refundTime o) (refundAmount o) (pointsEarned o)
    (pointsUsed o) (couponId o) (couponAmount o).
Definition set_refundReason (v : option string) (o : Order) : Order :=
  mkOrder (o_id o) (orderNo o) (o_userId o) (merchantId o) (subtotal o)
    (deliveryFee o) (discount o) (total o) (payAmount o) (payMethod o)
    (payStatus o) (payTime o) (status o) (deliveryStatus o)
    (deliveryTaskId o) (actualDeliveryTime o) (cancelReason o) (cancelTime o)
    v (refundTime o) (refundAmount o) (pointsEarned o)
    (pointsUsed o) (couponId o) (couponAmount o).
Definition set_refundTime (v : option Z) (o : Order) : Order :=
  mkOrder (o_id o) (orderNo o) (o_userId o) (merchantId o) (subtotal o)
    (deliveryFee o) (discount o) (total o) (payAmount o) (payMethod o)
    (payStatus o) (payTime o) (status o) (deliveryStatus o)
    (deliveryTaskId o) (actualDeliveryTime o) (cancelReason o) (cancelTime o)
    (refundReason o) v (refundAmount o) (pointsEarned o)
    (pointsUsed o) (couponId o) (couponAmount o).
Definition set_refundAmount (v : Q) (o : Order) : Order :=
  mkOrder (o_id o) (orderNo o) (o_userId o) (merchantId o) (subtotal o)
    (deliveryFee o) (discount o) (total o) (payAmount o) (payMethod o)
    (payStatus o) (payTime o) (status o) (deliveryStatus o)
    (deliveryTaskId o) (actualDeliveryTime o) (cancelReason o) (cancelTime o)
    (refundReason o) (refundTime o) v (pointsEarned o)
    (pointsUsed o) (couponId o) (couponAmount o).
Definition set_pointsEarned (v : Z) (o : Order) : Order :=
  mkOrder (o_id o) (orderNo o) (o_userId o) (merchantId o) (subtotal o)
    (deliveryFee o) (discount o) (total o) (payAmount o) (payMethod o)
    (payStatus o) (payTime o) (status o) (deliveryStatus o)
    (deliveryTaskId o) (actualDeliveryTime o) (cancelReason o) (cancelTime o)
    (refundReason o) (refundTime o) (refundAmount o) v
    (pointsUsed o) (couponId o) (couponAmount o).

Inductive Level := bronze | silver | gold | platinum.

Record User := mkUser {
  u_id : Z;
  level : Level;
  points : Z;
  totalPoints : Z;
  totalSpent : Q;
  lastSignInAt : option Z;
  signInCount : Z;
}.

Definition set_level (v : Level) (u : User) : User :=
  mkUser (u_id u) v (points u) (totalPoints u) (totalSpent u)
    (lastSignInAt u) (signInCount u).
Definition set_points (v : Z) (u : User) : User :=
  mkUser (u_id u) (level u) v (totalPoints u) (totalSpent u)
    (lastSignInAt u) (signInCount u).
Definition set_totalPoints (v : Z) (u : User) : User :=
  mkUser (u_id u) (level u) (points u) v (totalSpent u)
    (lastSignInAt u) (signInCount u).
Definition set_totalSpent (v : Q) (u : User) : User :=
  mkUser (u_id u) (level u) (points u) (totalPoints u) v
    (lastSignInAt u) (signInCount u).
Definition set_lastSignInAt (v : option Z) (u : User) : User :=
  mkUser (u_id u) (level u) (points u) (totalPoints u) (totalSpent u)
    v (signInCount u).
Definition set_signInCount (v : Z) (u : User) : User :=
  mkUser (u_id u) (level u) (points u) (totalPoints u) (totalSpent u)
    (lastSignInAt u) v.

Inductive PointType := earn | spend.

(** One row of the points ledger. *)
Record PointRecord := mkPointRecord {
  r_userId : Z;
  r_type : PointType;
  r_points : Z;
  r_reason : string;
  r_balance : Z;
}.

(** Requests sent to the payment gateway, with the signed parameter object
    that was posted. *)
Inductive GatewayCall :=
  | UnifiedOrder (params : Params)
  | OrderQuery (params : Params)
  | RefundCall (params : Params).

(** The world the handlers act on: the database tables, the Redis cache
    (key to expiry time and payload) and the trace of gateway requests. *)
Record Store := mkStore {
  orders : list Order;
  users : gmap Z User;
  dishes : gmap Z Dish;
  pointRecords : list PointRecord;
  redis : gmap string (Z * Params);
  gatewayCalls : list GatewayCall;
}.

Definition set_orders (v : list Order) (s : Store) : Store :=
  mkStore v (users s) (dishes s) (pointRecords s) (redis s) (gatewayCalls s).
Definition set_users (v : gmap Z User) (s : Store) : Store :=
  mkStore (orders s) v (dishes s) (pointRecords s) (redis s) (gatewayCalls s).
Definition set_dishes (v : gmap Z Dish) (s : Store) : Store :=
  mkStore (orders s) (users s) v (pointRecords s) (redis s) (gatewayCalls s).
Definition set_pointRecords (v : list PointRecord) (s : Store) : Store :=
  mkStore (orders s) (users s) (dishes s) v (redis s) (gatewayCalls s).
Definition set_redis (v : gmap string (Z * Params)) (s : Store) : Store :=
  mkStore (orders s) (users s) (dishes s) (pointRecords s) v (gatewayCalls s).
Definition set_gatewayCalls (v : list GatewayCall) (s : Store) : Store :=
  mkStore (orders s) (users s) (dishes s) (pointRecords s) (redis s) v.

(** ** What the code takes from outside

    [process.env], the MD5 digest of the crypto library (as a lowercase
    hexadecimal string), the XML parser of the payment service, the
    time zone of the server (offset of local time from UTC, in
    milliseconds; no daylight-saving changes) and [fmul], the product
    [a * b] of two numbers as double-precision arithmetic gives it. *)
Record Env := mkEnv {
  WX_APPID : JsVal;
  WX_MCH_ID : JsVal;
  WX_PAY_KEY : JsVal;
  WX_NOTIFY_URL : JsVal;
  POINTS_RATE : option Q;      (* parseFloat(process.env.POINTS_RATE) *)
  SIGN_IN_POINTS : option Z;   (* parseInt(process.env.SIGN_IN_POINTS) *)
  md5_hex : string → string;
  parseXML : string → Params;
  tzOffset : Z;
  fmul : Q → Q → Q;
}.

(** [parseFloat(process.env.POINTS_RATE) || 0.05]: [NaN] (variable unset
    or not a number, [None]) and [0] give the default. *)
Definition pointsRate (env : Env) : Q :=
  match POINTS_RATE env with
  | Some r => if Qeq_bool r 0 then 0.05%Q else r
  | None => 0.05%Q
  end.

(** [parseInt(process.env.SIGN_IN_POINTS) || 5] *)
Definition signInPoints (env : Env) : Z :=
  match SIGN_IN_POINTS env with
  | Some n => if bool_decide (n = 0) then 5 else n
  | None => 5
  end.

(** ** Dates

    A point in time is a number of milliseconds since the epoch.
    [toDateString] names the local calendar day of a point in time; two
    such strings are equal exactly when the day numbers are, so the day
    number stands for the string. *)
Definition msPerDay : Z := 24 * 60 * 60 * 1000.

Definition toDateString (env : Env) (t : Z) : Z := (t + tzOffset env) `div` msPerDay.

(** The calendar fields of [new Date()] that [generateOrderNo] reads. *)
Record JsDate := mkJsDate {
  getFullYear : Z;
  getMonth : Z;    (* 0 .. 11 *)
  getDate : Z;     (* 1 .. 31 *)
}.

(** ** Strings *)

Fixpoint repeat_char (n : nat) (c : ascii) : string :=
  match n with
  | O => ""
  | S n => String c (repeat_char n c)
  end.

(** [s.padStart(targetLength, c)] for a one-character pad string. *)
Definition padStart (targetLength : nat) (c : ascii) (s : string) : string :=
  repeat_char (targetLength - String.length s) c +:+ s.

(** [s.length]: the number of UTF-16 code units.  A string is held as
    its UTF-8 bytes: a byte that starts a character of one to three
    bytes counts one unit, one that starts a character of four bytes
    counts two (a surrogate pair), a continuation byte counts none. *)
Definition utf16_units (c : ascii) : nat :=
  let n := nat_of_ascii c in
  if (n <? 128)%nat then 1%nat
  else if (n <? 192)%nat then 0%nat
  else if (n <? 240)%nat then 1%nat
  else 2%nat.

Fixpoint js_length (s : string) : nat :=
  match s with
  | "" => 0%nat
  | String c s => (utf16_units c + js_length s)%nat
  end.

Definition upper_char (c : ascii) : ascii :=
  let n := nat_of_ascii c in
  if (97 <=? n)%nat && (n <=? 122)%nat then ascii_of_nat (n - 32) else c.

Fixpoint toUpperCase (s : string) : string :=
  match s with
  | "" => ""
  | String c s => String (upper_char c) (toUpperCase s)
  end.

(** ** Dish ([models/Dish.js]) *)

(** An entry of the JSON columns [specifications] and [addons]. *)
Record PriceOption := mkPriceOption {
  po_id : string;
  po_price : Q;
}.

Inductive DishStatus := dish_active | dish_inactive | dish_sold_out.

#[global] Instance DishStatus_eq_dec : EqDecision DishStatus.
Proof. solve_decision. Defined.

(** The columns of a dish row that the order handler reads and no code
    here writes: [name], [status], [specifications], [addons]. *)
Record DishInfo := mkDishInfo {
  di_name : string;
  di_status : DishStatus;
  specifications : list PriceOption;
  addons : list PriceOption;
}.

Module Dish.

Definition findByPk (id : Z) : M Store (option Dish) :=
  s ← get; mret (dishes s !! id).

Definition save : M (Dish * Store) unit :=
  db_modify (λ this s, set_dishes (<[d_id this := this]> (dishes s)) s).

(** The functions of the literal that the file assigns to
    [Dish.prototype]; no instance has them. *)

Definition decreaseStock (quantity : Z) : M (Dish * Store) unit :=
  this ← this_;
  if bool_decide (stock this ≠ -1) then
    if bool_decide (stock this < quantity) then
      throw InsufficientStock
    else
      assign (λ this, set_stock (stock this - quantity) this);;
      save
  else mret ().

Definition increaseStock (quantity : Z) : M (Dish * Store) unit :=
  this ← this_;
  if bool_decide (stock this ≠ -1) then
    assign (λ this, set_stock (stock this + quantity) this);;
    save
  else mret ().

Definition hasStock (this : Dish) (quantity : Z) : bool :=
  bool_decide (stock this = -1) || bool_decide (stock this >= quantity).

Definition getSpecificationPrice (this : Dish) (info : DishInfo) (specId : string) : Q :=
  let spec := find (λ s, bool_decide (po_id s = specId)) (specifications info) in
  match spec with
  | Some spec => po_price spec
  | None => price this
  end.

Definition getAddonPrice (info : DishInfo) (addonIds : list string) : Q :=
  foldl (λ totalAddonPrice addonId,
           let addon := find (λ a, bool_decide (po_id a = addonId)) (addons info) in
           match addon with
           | Some addon => (totalAddonPrice + po_price addon)%Q
           | None => totalAddonPrice
           end)
        0%Q addonIds.

(** [if (specId)]: a missing specification and the empty string are
    falsy. *)
Definition calculateTotalPrice (this : Dish) (info : DishInfo)
    (specId : option string) (addonIds : list string) (quantity : Z) : Q :=
  let basePrice := price this in
  let basePrice :=
    if bool_decide (default "" specId ≠ "")
    then getSpecificationPrice this info (default "" specId)
    else basePrice in
  let addonPrice := getAddonPrice info addonIds in
  let totalPrice := ((basePrice + addonPrice) * inject_Z quantity)%Q in
  totalPrice.

End Dish.

(** ** Order: number generation, queries, and what the handlers name *)

Module Order.

Definition generateOrderNo (date : JsDate) (random : Q) : string :=
  let year := getFullYear date in
  let month := padStart 2 "0" (pretty (getMonth date + 1)) in
  let day := padStart 2 "0" (pretty (getDate date)) in
  let random := padStart 4 "0" (pretty (Qfloor (random * 10000))) in
  pretty year +:+ month +:+ day +:+ random.

(** The [beforeCreate] hook; an order number that was not supplied is
    the empty string. *)
Definition beforeCreate (date : JsDate) (random : Q) (order : Order) : Order :=
  if bool_decide (orderNo order = "") then
    set_orderNo (generateOrderNo date random) order
  else order.

(** AUTO_INCREMENT primary key: one more than the largest key in use. *)
Definition next_id (rows : list Order) : Z :=
  1 + foldr Z.max 0 (o_id <$> rows).

(** [Order.create(values)] for values that give [orderNo] as a string:
    hook, then insert.  The column [orderNo] is declared [unique: true],
    so the insert of a number that a row already has is refused by the
    database. *)
Definition create (date : JsDate) (random : Q) (values : Order) : M Store Order :=
  let order := beforeCreate date random values in
  s ← get;
  if bool_decide (orderNo order ∈ (orderNo <$> orders s)) then
    throw UniqueConstraintError
  else
    let order := set_o_id (next_id (orders s)) order in
    put (set_orders (orders s ++ [order]) s);;
    mret order.

(** [Order.create(values)] for values that give no [orderNo]; [values]
    is the rest of the object.  A new instance is validated before its
    [beforeCreate] hook runs, and the column is [allowNull: false]
    without a default: the call is refused with a validation error, and
    the hook never gets to supply the number. *)
Definition create_unnumbered (date : JsDate) (random : Q) (values : string → Order)
    : M Store Order :=
  throw ValidationError.

Definition findByPk (id : Z) : M Store (option Order) :=
  s ← get; mret (find (λ r, bool_decide (o_id r = id)) (orders s)).

(** [findOne({ where: { orderNo } })].  The query builder refuses
    [undefined] as the value of a condition and throws.  The callers
    pass a route parameter or a field of the parsed callback, which is a
    string or [undefined]; [null] and a number match no row here. *)
Definition findByOrderNo (no : JsVal) : M Store (option Order) :=
  match no with
  | VUndef => throw InvalidWhereValue
  | _ =>
    s ← get; mret (find (λ r, bool_decide (VStr (orderNo r) = no)) (orders s))
  end.

(** [this.save()]: the columns assigned since the instance was read are
    written to the row with its key.  The code saves an instance that
    it has just read, with no other write to the row in between, so the
    row then reads as the instance: the instance is written over the
    row.  (The same holds for the [save] of a dish and of a user.) *)
Definition save_row (this : Order) (rows : list Order) : list Order :=
  (λ r, if bool_decide (o_id r = o_id this) then this else r) <$> rows.

Definition save : M (Order * Store) unit :=
  db_modify (λ this s, set_orders (save_row this (orders s)) s).

(** Two functions of the literal that the file assigns to
    [Order.prototype]; no instance has them.  [now] is [new Date()]. *)

Definition cancel (reason : string) (now : Z) : M (Order * Store) unit :=
  this ← this_;
  if negb (bool_decide (status this ∈ [pending; confirmed])) then
    throw InvalidStateTransition
  else
    assign (set_status cancelled);;
    assign (set_cancelReason (Some reason));;
    assign (set_cancelTime (Some now));;
    save.

Definition paySuccess (method : PayMethod) (now : Z) : M (Order * Store) unit :=
  assign (set_payStatus paid);;
  assign (set_payMethod (Some method));;
  assign (set_payTime (Some now));;
  assign (set_status confirmed);;
  save.

End Order.

(** Running database code inside a method. *)
Definition lift_db {T D A} (m : M D A) : M (T * D) A := λ s,
  let '(r, d') := m (snd s) in (r, (fst s, d')).

(** ** PointRecord: the append-only points ledger *)

Module PointRecord.

Definition create (r : PointRecord) : M Store unit :=
  modify (λ s, set_pointRecords (pointRecords s ++ [r]) s).

End PointRecord.

(** ** User: points, sign-in, cumulative spend *)

#[global] Instance Level_eq_dec : EqDecision Level.
Proof. solve_decision. Defined.

Module User.

Definition calculateUserLevel (totalSpent : Q) : Level :=
  let amount := totalSpent in
  if Qle_bool 5000 amount then platinum
  else if Qle_bool 1000 amount then gold
  else if Qle_bool 500 amount then silver
  else bronze.

Definition findByPk (id : Z) : M Store (option User) :=
  s ← get; mret (users s !! id).

(** [user.changed('totalSpent')]: the value differs from the one the
    instance had when it was read, which is the stored one (see
    [Order.save_row]). *)
Definition changed_totalSpent (this : User) (s : Store) : bool :=
  match users s !! u_id this with
  | Some row => negb (Qeq_bool (totalSpent row) (totalSpent this))
  | None => true
  end.

(** The [beforeUpdate] hook. *)
Definition beforeUpdate (this : User) (s : Store) : User :=
  if changed_totalSpent this s
  then set_level (calculateUserLevel (totalSpent this)) this
  else this.

Definition save : M (User * Store) unit := λ st,
  let this := beforeUpdate (fst st) (snd st) in
  (Ok (), (this, set_users (<[u_id this := this]> (users (snd st))) (snd st))).

(** The functions of the literal that the file assigns to
    [User.prototype]; no instance has them. *)

Definition addPoints (pts : Z) (reason : string) : M (User * Store) unit :=
  assign (λ this, set_points (points this + pts) this);;
  assign (λ this, set_totalPoints (totalPoints this + pts) this);;
  save;;
  this ← this_;
  lift_db (PointRecord.create
    {| r_userId := u_id this; r_type := earn; r_points := pts;
       r_reason := reason; r_balance := points this |}).

Definition usePoints (pts : Z) (reason : string) : M (User * Store) unit :=
  this ← this_;
  if bool_decide (points this < pts) then throw InsufficientPoints
  else
    assign (λ this, set_points (points this - pts) this);;
    save;;
    this ← this_;
    lift_db (PointRecord.create
      {| r_userId := u_id this; r_type := spend; r_points := - pts;
         r_reason := reason; r_balance := points this |}).

(** [signIn]; [now] is the reading of the clock ([new Date()],
    [Date.now()]) during the call.  The result is the pair
    [{ points, signInCount }]. *)
Definition signIn (env : Env) (now : Z) : M (User * Store) (Z * Z) :=
  let today := toDateString env now in
  this ← this_;
  let lastSignIn := toDateString env <$> lastSignInAt this in
  if bool_decide (lastSignIn = Some today) then throw AlreadySignedInToday
  else
    (if bool_decide
          (lastSignIn = Some (toDateString env (now - 24 * 60 * 60 * 1000)))
     then assign (λ this, set_signInCount (signInCount this + 1) this)
     else assign (set_signInCount 1));;
    assign (set_lastSignInAt (Some now));;
    let signInPoints := signInPoints env in
    addPoints signInPoints "签到奖励";;
    save;;
    this ← this_;
    mret (signInPoints, signInCount this).

Definition updateSpent (amount : Q) : M (User * Store) unit :=
  assign (λ this, set_totalSpent (totalSpent this + amount)%Q this);;
  save.

End User.

(** ** Merchant: the delivery fee *)

Record Merchant := mkMerchant {
  m_id : Z;
  m_deliveryFee : Q;
  freeDeliveryThreshold : Q;
}.

Module Merchant.

(** A function of the literal that the file assigns to
    [Merchant.prototype]; no instance has it. *)
Definition getDeliveryFee (this : Merchant) (orderAmount : Q) : Q :=
  if Qle_bool (freeDeliveryThreshold this) orderAmount then 0%Q
  else m_deliveryFee this.

End Merchant.

(** ** PaymentService ([services/paymentService.js]) *)

(** [Math.round]: the integer nearest to a number, a tie going up. *)
Definition js_round (x : Q) : Z := Qfloor (x + (1 # 2))%Q.

(** The result object of [handlePaymentNotify].  A repeated callback gives
    [{ success: true, message }] only, so its [orderNo] is [undefined].
    ([totalFee], which no caller reads, is left out.) *)
Record NotifyResult := mkNotifyResult {
  nr_success : bool;
  nr_orderNo : JsVal;
  nr_transactionId : JsVal;
  nr_openid : JsVal;
  nr_attach : JsVal;
}.

Record RefundData := mkRefundData {
  rd_orderNo : string;
  rd_refundNo : string;
  rd_totalFee : Q;
  rd_refundFee : Q;
  rd_reason : string;
}.

Module PaymentService.

Definition generateSign (env : Env) (params : Params) (key : JsVal) : string :=
  (* 1. Object.keys(params).sort(): ascending order of the code units,
     which for the ASCII keys of the protocol is the order of the bytes *)
  let sortedKeys := merge_sort (≤)%string (map_to_list params).*1 in
  (* 2. concatenation *)
  let signStr :=
    foldl (λ signStr key,
             if strict_ne_empty (prop params key)
                && loose_ne_null (prop params key)
                && bool_decide (key ≠ "sign")
             then signStr +:+ key +:+ "=" +:+ js_to_string (prop params key) +:+ "&"
             else signStr)
          "" sortedKeys in
  let signStr := signStr +:+ "key=" +:+ js_to_string key in
  (* 3. MD5, uppercase *)
  toUpperCase (md5_hex env signStr).

Definition verifySign (env : Env) (params : Params) (sign : JsVal) : bool :=
  let calculatedSign := generateSign env params (WX_PAY_KEY env) in
  bool_decide (VStr calculatedSign = sign).

Definition post (c : GatewayCall) : M Store unit :=
  modify (λ s, set_gatewayCalls (gatewayCalls s ++ [c]) s).

(** [queryOrder]; [nonce] is the random string, [reply] the body of the
    HTTP response ([None]: the request failed). *)
Definition queryOrder (env : Env) (orderNo : string) (nonce : string)
    (reply : option string) : M Store Params :=
  try_catch
    (let params : Params :=
       <["nonce_str" := VStr nonce]> (<["out_trade_no" := VStr orderNo]>
       (<["mch_id" := WX_MCH_ID env]> (<["appid" := WX_APPID env]> ∅))) in
     let params := <["sign" := VStr (generateSign env params (WX_PAY_KEY env))]> params in
     post (OrderQuery params);;
     match reply with
     | None => throw GatewayUnavailable
     | Some data => mret (parseXML env data)
     end)
    (λ error, throw error).

Definition refund (env : Env) (refundData : RefundData) (nonce : string)
    (reply : option string) : M Store Params :=
  try_catch
    (let params : Params :=
       <["refund_desc" := VStr (rd_reason refundData)]>
       (<["refund_fee" := VNum (js_round (fmul env (rd_refundFee refundData) 100))]>
       (<["total_fee" := VNum (js_round (fmul env (rd_totalFee refundData) 100))]>
       (<["out_refund_no" := VStr (rd_refundNo refundData)]>
       (<["out_trade_no" := VStr (rd_orderNo refundData)]>
       (<["nonce_str" := VStr nonce]>
       (<["mch_id" := WX_MCH_ID env]> (<["appid" := WX_APPID env]> ∅))))))) in
     let params := <["sign" := VStr (generateSign env params (WX_PAY_KEY env))]> params in
     post (RefundCall params);;
     match reply with
     | None => throw GatewayUnavailable
     | Some data => mret (parseXML env data)
     end)
    (λ error, throw error).

(** [redis.get]: an entry that has expired is gone.  The entry counts
    as expired from the millisecond of its expiry on. *)
Definition redis_get (key : string) (now : Z) : M Store (option Params) :=
  s ← get;
  mret (match redis s !! key with
        | Some (expiry, v) => if bool_decide (now < expiry) then Some v else None
        | None => None
        end).

(** [redis.setex(key, seconds, value)] *)
Definition redis_setex (key : string) (seconds : Z) (v : Params) (now : Z)
    : M Store unit :=
  modify (λ s, set_redis (<[key := (now + seconds * 1000, v)]> (redis s)) s).

Definition handlePaymentNotify (env : Env) (xmlData : string) (now : Z)
    : M Store NotifyResult :=
  try_catch
    (let params := parseXML env xmlData in
     if negb (verifySign env params (prop params "sign")) then
       throw SignatureMismatch
     else if bool_decide (prop params "return_code" ≠ VStr "SUCCESS") then
       throw (PaymentFailed (js_or (prop params "return_msg") (VStr "支付失败")))
     else if bool_decide (prop params "result_code" ≠ VStr "SUCCESS") then
       throw (PaymentFailed (js_or (prop params "err_code_des") (VStr "支付失败")))
     else
       let orderNo := prop params "out_trade_no" in
       let transactionId := prop params "transaction_id" in
       let cacheKey := "payment_notify:" +:+ js_to_string orderNo in
       cached ← redis_get cacheKey now;
       if bool_decide (is_Some cached) then
         mret {| nr_success := true; nr_orderNo := VUndef;
                 nr_transactionId := VUndef; nr_openid := VUndef;
                 nr_attach := VUndef |}
       else
         redis_setex cacheKey 300 params now;;
         mret {| nr_success := true; nr_orderNo := orderNo;
                 nr_transactionId := transactionId;
                 nr_openid := prop params "openid";
                 nr_attach := prop params "attach" |})
    (λ error, throw error).

Definition generateRefundNo (date : JsDate) (random : Q) : string :=
  let year := getFullYear date in
  let month := padStart 2 "0" (pretty (getMonth date + 1)) in
  let day := padStart 2 "0" (pretty (getDate date)) in
  let random := padStart 4 "0" (pretty (Qfloor (random * 10000))) in
  "RF" +:+ pretty year +:+ month +:+ day +:+ random.

End PaymentService.

(** ** HTTP responses ([ctx.status], [ctx.body]) *)

Inductive Body :=
  | Xml (text : string)
  | Failure (message : string)                      (* { success: false, message } *)
  | PayStatusPaid (orderNo : string) (payTime : option Z)
      (payMethod : option PayMethod)                 (* order already paid *)
  | PayStatusSettled (orderNo : string) (payTime : option Z)
      (pointsEarned : Z)                             (* paid by this poll *)
  | PayStatusUnpaid (orderNo : string) (tradeState : JsVal)
  | RefundAccepted (refundNo : string) (refundAmount : Q) (refundTime : option Z)
  | OrderCreated (orderId : Z) (orderNo : string) (payAmount : Q).

Record Response := mkResponse {
  res_status : Z;
  res_body : Body;
}.

Definition ackSuccess : Body :=
  Xml "<xml><return_code><![CDATA[SUCCESS]]></return_code><return_msg><![CDATA[OK]]></return_msg></xml>".
Definition ackFail : Body :=
  Xml "<xml><return_code><![CDATA[FAIL]]></return_code><return_msg><![CDATA[处理失败]]></return_msg></xml>".

(** ** [routes/payment.js] *)

Record RefundRequest := mkRefundRequest {
  rq_orderId : Z;
  rq_refundAmount : Q;
  rq_reason : string;
}.

Module PaymentRoutes.

(** The statements that both the poll and the callback have after
    [order.paySuccess('wechat')]: spend total, points, [pointsEarned] on
    the order.  It returns the order instance and the points.
    [userInfo.updateSpent] and [userInfo.addPoints] name functions of
    the [User] literal; [order.save()] is the method of the class. *)
Definition creditUser (env : Env) (order : Order) (userInfo : option User)
    : M Store (Order * Z) :=
  match userInfo with
  | None => throw TypeError
  | Some userInfo =>
    '(_, userInfo) ← call_missing (User.updateSpent (payAmount order)) userInfo;
    let pointsRate := pointsRate env in
    let pointsEarned := Qfloor (fmul env (payAmount order) pointsRate) in
    if bool_decide (pointsEarned > 0) then
      '(_, userInfo) ← call_missing (User.addPoints pointsEarned "消费奖励") userInfo;
      '(_, order) ← call (assign (set_pointsEarned pointsEarned);; Order.save) order;
      mret (order, pointsEarned)
    else mret (order, pointsEarned)
  end.

(** GET /payment/status/:orderNo.  [user] is [ctx.state.user.userId],
    [orderNoParam] is [ctx.params.orderNo].  [order.paySuccess] names a
    function of the [Order] literal. *)
Definition get_status (env : Env) (user : option Z) (orderNoParam : string)
    (nonce : string) (reply : option string) (now : Z) : M Store Response :=
  try_catch
    (match user with
     | None => mret (mkResponse 401 (Failure "用户未认证"))
     | Some userId =>
       order ← Order.findByOrderNo (VStr orderNoParam);
       match order with
       | None => mret (mkResponse 404 (Failure "订单不存在"))
       | Some order =>
         if bool_decide (o_userId order ≠ userId) then
           mret (mkResponse 403 (Failure "无权查看此订单"))
         else if bool_decide (payStatus order = paid) then
           mret (mkResponse 200
                   (PayStatusPaid (orderNo order) (payTime order) (payMethod order)))
         else
           wxResult ← PaymentService.queryOrder env orderNoParam nonce reply;
           if bool_decide (prop wxResult "return_code" = VStr "SUCCESS")
              && bool_decide (prop wxResult "result_code" = VStr "SUCCESS")
           then
             let tradeState := prop wxResult "trade_state" in
             if bool_decide (tradeState = VStr "SUCCESS") then
               '(_, order) ← call_missing (Order.paySuccess wechat now) order;
               userInfo ← User.findByPk userId;
               '(order, pointsEarned) ← creditUser env order userInfo;
               mret (mkResponse 200
                       (PayStatusSettled (orderNo order) (payTime order) pointsEarned))
             else
               mret (mkResponse 200 (PayStatusUnpaid (orderNo order) tradeState))
           else
             mret (mkResponse 200 (PayStatusUnpaid (orderNo order) (VStr "UNKNOWN")))
       end
     end)
    (λ error, mret (mkResponse 500 (Failure "查询支付状态失败"))).

(** POST /payment/notify.  [order.paySuccess] names a function of the
    [Order] literal. *)
Definition post_notify (env : Env) (xmlData : string) (now : Z) : M Store Response :=
  try_catch
    (result ← PaymentService.handlePaymentNotify env xmlData now;
     (if nr_success result then
        order ← Order.findByOrderNo (nr_orderNo result);
        match order with
        | Some order =>
          if bool_decide (payStatus order = unpaid) then
            '(_, order) ← call_missing (Order.paySuccess wechat now) order;
            userInfo ← User.findByPk (o_userId order);
            creditUser env order userInfo;;
            mret ()
          else mret ()
        | None => mret ()
        end
      else mret ());;
     mret (mkResponse 200 ackSuccess))
    (λ error, mret (mkResponse 200 ackFail)).

(** POST /payment/refund.  [date] and [random] are what
    [generateRefundNo] draws. *)
Definition post_refund (env : Env) (user : option Z) (body : RefundRequest)
    (date : JsDate) (random : Q) (nonce : string) (reply : option string)
    (now : Z) : M Store Response :=
  try_catch
    (match user with
     | None => mret (mkResponse 401 (Failure "用户未认证"))
     | Some userId =>
       (* Joi: refundAmount positive; reason a non-empty string of
          length at most 200 *)
       if negb (Qle_bool (rq_refundAmount body) 0)
          && bool_decide (rq_reason body ≠ "")
          && bool_decide (js_length (rq_reason body) ≤ 200)%nat
       then
         let orderId := rq_orderId body in
         let refundAmount := rq_refundAmount body in
         let reason := rq_reason body in
         order ← Order.findByPk orderId;
         match order with
         | None => mret (mkResponse 404 (Failure "订单不存在"))
         | Some order =>
           if bool_decide (o_userId order ≠ userId) then
             mret (mkResponse 403 (Failure "无权操作此订单"))
           else if bool_decide (status order ≠ completed) then
             mret (mkResponse 400 (Failure "订单状态不正确"))
           else if negb (Qle_bool refundAmount (payAmount order)) then
             mret (mkResponse 400 (Failure "退款金额不能超过支付金额"))
           else
             let refundNo := PaymentService.generateRefundNo date random in
             refundResult ← PaymentService.refund env
               {| rd_orderNo := orderNo order; rd_refundNo := refundNo;
                  rd_totalFee := payAmount order; rd_refundFee := refundAmount;
                  rd_reason := reason |} nonce reply;
             if bool_decide (prop refundResult "return_code" = VStr "SUCCESS")
                && bool_decide (prop refundResult "result_code" = VStr "SUCCESS")
             then
               '(_, order) ← call
                 (assign (set_status refunded);;
                  assign (set_refundReason (Some reason));;
                  assign (set_refundTime (Some now));;
                  assign (set_refundAmount refundAmount);;
                  Order.save) order;
               mret (mkResponse 200
                       (RefundAccepted refundNo refundAmount (refundTime order)))
             else
               throw (RefundFailed (js_or (prop refundResult "err_code_des") (VStr "退款失败")))
         end
       else mret (mkResponse 400 (Failure "参数错误"))
     end)
    (λ error, mret (mkResponse 500 (Failure "申请退款失败"))).

End PaymentRoutes.

(** ** [routes/orders.js] *)

(** What the pricing block of POST /orders computes. *)
Record Pricing := mkPricing {
  p_deliveryFee : Q;
  p_discount : Q;
  p_couponAmount : Q;
  p_total : Q;
  p_payAmount : Q;
}.

(** The merchant row that [Merchant.findByPk] gives: the columns of the
    delivery fee and [status]. *)
Inductive MerchantStatus := merchant_active | merchant_inactive | merchant_suspended.

#[global] Instance MerchantStatus_eq_dec : EqDecision MerchantStatus.
Proof. solve_decision. Defined.

Record MerchantRow := mkMerchantRow {
  mr_merchant : Merchant;
  mr_status : MerchantStatus;
}.

(** The body of POST /orders. *)
Record OrderItem := mkOrderItem {
  it_dishId : Z;
  it_quantity : Z;
  it_specId : option string;
  it_addonIds : option (list string);
  it_remark : option string;
}.

Record Address := mkAddress {
  a_name : string;
  a_phone : string;
  a_province : string;
  a_city : string;
  a_district : string;
  a_address : string;
  a_latitude : option Q;
  a_longitude : option Q;
}.

Record OrderRequest := mkOrderRequest {
  rq_merchantId : Z;
  rq_items : list OrderItem;
  rq_deliveryAddress : Address;
  rq_remark : option string;
  rq_couponId : option Z;
  rq_pointsUsed : option Z;
}.

(** A response whose body has a shape of its own. *)
Record Reply (B : Type) := mkReply {
  rp_status : Z;
  rp_body : B;
}.
Arguments mkReply {B} rp_status rp_body.
Arguments rp_status {B} r.
Arguments rp_body {B} r.

Inductive CancelBody :=
  | CancelOk                            (* { success: true, message } *)
  | CancelRefused (message : string)    (* { success: false, message } *)
  | CancelThrown (e : error).           (* { success: false, message: error.message } *)

Module OrderRoutes.

(** The lines of POST /orders after [merchant.getDeliveryFee(subtotal)],
    up to [payAmount]; [couponId] and [pointsUsed] are optional request
    fields, and [0] is falsy like a missing one.  No request reaches
    these lines (see [post_orders]); the arithmetic is exact. *)
Definition pricing (deliveryFee : Q) (subtotal : Q)
    (couponId pointsUsed : option Z) : Pricing :=
  let discount := 0%Q in
  let couponAmount := 0%Q in
  let '(couponAmount, discount) :=
    if bool_decide (default 0 couponId ≠ 0) then
      let couponAmount := 5%Q in
      (couponAmount, (discount + couponAmount)%Q)
    else (couponAmount, discount) in
  let discount :=
    if bool_decide (default 0 pointsUsed ≠ 0) then
      let pointsRate := 0.01%Q in
      let pointsDiscount := (inject_Z (default 0%Z pointsUsed) * pointsRate)%Q in
      (discount + pointsDiscount)%Q
    else discount in
  let total := (subtotal + deliveryFee)%Q in
  let payAmount := Qmax 0 (total - discount) in
  mkPricing deliveryFee discount couponAmount total payAmount.

(** The object given to [Order.create], which has no [orderNo]; columns
    that are not given take their declared defaults ([pointsUsed]: 0,
    [payStatus]: unpaid, [status]: pending, ...). *)
Definition orderValues (userId : Z) (merchant : Merchant) (subtotal : Q)
    (p : Pricing) (couponId pointsUsed : option Z) (orderNo : string) : Order :=
  {| o_id := 0; orderNo := orderNo; o_userId := userId; merchantId := m_id merchant;
     subtotal := subtotal; deliveryFee := p_deliveryFee p;
     discount := p_discount p; total := p_total p;
     payAmount := p_payAmount p; payMethod := None; payStatus := unpaid;
     payTime := None; status := pending; deliveryStatus := dl_pending;
     deliveryTaskId := None; actualDeliveryTime := None;
     cancelReason := None; cancelTime := None; refundReason := None;
     refundTime := None; refundAmount := 0%Q; pointsEarned := 0;
     pointsUsed := default 0 pointsUsed; couponId := couponId;
     couponAmount := p_couponAmount p |}.

(** The Joi schema on a body whose fields have the right types: a
    string, where present, is not empty; a number is within the safe
    integers; [quantity] is at least 1, [pointsUsed] at least 0; there
    is at least one item. *)
Definition joi_string (s : string) : bool := bool_decide (s ≠ "").

Definition joi_number (n : Q) : bool :=
  Qle_bool (inject_Z (- (2 ^ 53 - 1))) n && Qle_bool n (inject_Z (2 ^ 53 - 1)).

Definition joi_optional {A} (check : A → bool) (v : option A) : bool :=
  match v with
  | Some v => check v
  | None => true
  end.

Definition joi_item (item : OrderItem) : bool :=
  joi_number (inject_Z (it_dishId item))
  && joi_number (inject_Z (it_quantity item))
  && bool_decide (1 ≤ it_quantity item)
  && joi_optional joi_string (it_specId item)
  && joi_optional (forallb joi_string) (it_addonIds item)
  && joi_optional joi_string (it_remark item).

Definition joi_address (a : Address) : bool :=
  joi_string (a_name a) && joi_string (a_phone a) && joi_string (a_province a)
  && joi_string (a_city a) && joi_string (a_district a) && joi_string (a_address a)
  && joi_optional joi_number (a_latitude a)
  && joi_optional joi_number (a_longitude a).

Definition validate (body : OrderRequest) : bool :=
  joi_number (inject_Z (rq_merchantId body))
  && forallb joi_item (rq_items body)
  && bool_decide (rq_items body ≠ [])
  && joi_address (rq_deliveryAddress body)
  && joi_optional joi_string (rq_remark body)
  && joi_optional (λ n, joi_number (inject_Z n)) (rq_couponId body)
  && joi_optional (λ n, joi_number (inject_Z n) && bool_decide (0 ≤ n))
       (rq_pointsUsed body).

(** [Dish.findByPk]: the row, with the columns that are kept in
    [catalog]. *)
Definition findDish (catalog : gmap Z DishInfo) (id : Z)
    : M Store (option (Dish * DishInfo)) :=
  dish ← Dish.findByPk id;
  mret (match dish, catalog !! id with
        | Some dish, Some info => Some (dish, info)
        | _, _ => None
        end).

(** The first loop over the items: it ends the request with an answer,
    or gives the subtotal.  [dish.hasStock] and
    [dish.calculateTotalPrice] name functions of the [Dish] literal. *)
Fixpoint priceItems (catalog : gmap Z DishInfo) (items : list OrderItem)
    (subtotal : Q) : M Store (Response + Q) :=
  match items with
  | [] => mret (inr subtotal)
  | item :: items =>
    dish ← findDish catalog (it_dishId item);
    match dish with
    | None =>
      mret (inl (mkResponse 400
        (Failure ("菜品 " +:+ pretty (it_dishId item) +:+ " 不存在或已下架"))))
    | Some (dish, info) =>
      if bool_decide (di_status info ≠ dish_active) then
        mret (inl (mkResponse 400
          (Failure ("菜品 "
                    +:+ (if bool_decide (di_name info ≠ "") then di_name info
                         else pretty (it_dishId item))
                    +:+ " 不存在或已下架"))))
      else
        inStock ← apply_missing (Dish.hasStock dish (it_quantity item));
        if negb inStock then
          mret (inl (mkResponse 400
            (Failure ("菜品 " +:+ di_name info +:+ " 库存不足"))))
        else
          itemPrice ← apply_missing
            (Dish.calculateTotalPrice dish info (it_specId item)
               (default [] (it_addonIds item)) (it_quantity item));
          priceItems catalog items (subtotal + itemPrice)%Q
    end
  end.

(** The second loop over the items.  [dish.decreaseStock] names a
    function of the [Dish] literal. *)
Fixpoint reserveItems (items : list OrderItem) : M Store unit :=
  match items with
  | [] => mret ()
  | item :: items =>
    dish ← Dish.findByPk (it_dishId item);
    match dish with
    | None => throw TypeError
    | Some dish =>
      call_missing (Dish.decreaseStock (it_quantity item)) dish;;
      reserveItems items
    end
  end.

(** [x && y] on two optional numbers: both are there and neither is 0. *)
Definition has_coordinates (a : Address) : bool :=
  match a_latitude a, a_longitude a with
  | Some lat, Some lng => negb (Qeq_bool lat 0) && negb (Qeq_bool lng 0)
  | _, _ => false
  end.

(** POST /orders.  [user] is [ctx.state.user.userId]; [merchants] is the
    merchants table, [isInDeliveryRange] the function of that name in
    the [Merchant] literal (a distance computed with floating-point
    trigonometry), [catalog] the descriptive columns of the dishes
    table; [date] and [random] are what [generateOrderNo] would draw.
    [merchant.isInDeliveryRange] and [merchant.getDeliveryFee] name
    functions of the [Merchant] literal.  The list [orderItems] that
    would be stored in the JSON column [items] of the order is left
    out, as is the field [details] of the answer to a body that does
    not pass the schema. *)
Definition post_orders (user : option Z) (body : OrderRequest)
    (merchants : gmap Z MerchantRow)
    (isInDeliveryRange : Merchant → Q → Q → bool)
    (catalog : gmap Z DishInfo) (date : JsDate) (random : Q) : M Store Response :=
  try_catch
    (match user with
     | None => mret (mkResponse 401 (Failure "用户未认证"))
     | Some userId =>
       if negb (validate body) then mret (mkResponse 400 (Failure "参数错误"))
       else
         let items := rq_items body in
         let deliveryAddress := rq_deliveryAddress body in
         match merchants !! rq_merchantId body with
         | None => mret (mkResponse 400 (Failure "商家不存在或未营业"))
         | Some merchant =>
           if bool_decide (mr_status merchant ≠ merchant_active) then
             mret (mkResponse 400 (Failure "商家不存在或未营业"))
           else
             outOfRange ←
               (if has_coordinates deliveryAddress then
                  inRange ← apply_missing
                    (isInDeliveryRange (mr_merchant merchant)
                       (default 0%Q (a_latitude deliveryAddress))
                       (default 0%Q (a_longitude deliveryAddress)));
                  mret (negb inRange)
                else mret false);
             if outOfRange : bool then mret (mkResponse 400 (Failure "超出配送范围"))
             else
               priced ← priceItems catalog items 0%Q;
               match priced with
               | inl response => mret response
               | inr subtotal =>
                 deliveryFee ← apply_missing
                   (Merchant.getDeliveryFee (mr_merchant merchant) subtotal);
                 let p := pricing deliveryFee subtotal (rq_couponId body)
                            (rq_pointsUsed body) in
                 order ← Order.create_unnumbered date random
                           (orderValues userId (mr_merchant merchant) subtotal p
                              (rq_couponId body) (rq_pointsUsed body));
                 reserveItems items;;
                 mret (mkResponse 200
                         (OrderCreated (o_id order) (orderNo order) (payAmount order)))
               end
         end
     end)
    (λ error, mret (mkResponse 500 (Failure "创建订单失败"))).

(** The loop of the cancel route over the items of the order.
    [dish.increaseStock] names a function of the [Dish] literal. *)
Fixpoint restoreItems (items : list OrderItem) : M Store unit :=
  match items with
  | [] => mret ()
  | item :: items =>
    dish ← Dish.findByPk (it_dishId item);
    match dish with
    | Some dish =>
      call_missing (Dish.increaseStock (it_quantity item)) dish;;
      restoreItems items
    | None => restoreItems items
    end
  end.

(** POST /orders/:id/cancel.  [id] is the key that [ctx.params.id]
    denotes, [reason] the field of the body, [items] the JSON column
    [items] of the order row, which is not a field of the record.
    [order.cancel] names a function of the [Order] literal. *)
Definition post_cancel (user : option Z) (id : Z) (reason : option string)
    (items : list OrderItem) (now : Z) : M Store (Reply CancelBody) :=
  try_catch
    (match user with
     | None => mret (mkReply 401 (CancelRefused "用户未认证"))
     | Some userId =>
       order ← Order.findByPk id;
       match order with
       | None => mret (mkReply 404 (CancelRefused "订单不存在"))
       | Some order =>
         if bool_decide (o_userId order ≠ userId) then
           mret (mkReply 403 (CancelRefused "无权操作此订单"))
         else
           let reason :=
             if bool_decide (default "" reason ≠ "") then default "" reason
             else "用户取消" in
           '(_, order) ← call_missing (Order.cancel reason now) order;
           restoreItems items;;
           mret (mkReply 200 CancelOk)
       end
     end)
    (λ error, mret (mkReply 500 (CancelThrown error))).

End OrderRoutes.

(** ** [routes/users.js]: POST /users/sign-in *)

Inductive SignInBody :=
  | SignInOk (points signInCount : Z)   (* { success: true, data: result } *)
  | SignInRefused (message : string)    (* { success: false, message } *)
  | SignInThrown (e : error).           (* { success: false, message: error.message } *)

Module UserRoutes.

(** [userInfo.signIn] names a function of the [User] literal. *)
Definition post_sign_in (env : Env) (user : option Z) (now : Z)
    : M Store (Reply SignInBody) :=
  try_catch
    (match user with
     | None => mret (mkReply 401 (SignInRefused "用户未认证"))
     | Some userId =>
       userInfo ← User.findByPk userId;
       match userInfo with
       | None => mret (mkReply 404 (SignInRefused "用户不存在"))
       | Some userInfo =>
         '(result, _) ← call_missing (User.signIn env now) userInfo;
         mret (mkReply 200 (SignInOk (fst result) (snd result)))
       end
     end)
    (λ error, mret (mkReply 400 (SignInThrown error))).

End UserRoutes.

(** ** Concrete data for the examples

    A sample environment: the digest is replaced by the identity, the
    product of doubles by the exact product, and the parser by a
    function that reads every callback body as one fixed,
    correctly signed message of the gateway, which serves both as a
    payment notification and as the answer to an order query. *)

Module Sample.

Definition env_with (parser : string → Params) : Env :=
  {| WX_APPID := VStr "wx0001"; WX_MCH_ID := VStr "1900000109";
     WX_PAY_KEY := VStr "secret"; WX_NOTIFY_URL := VStr "https://example.test/notify";
     POINTS_RATE := None; SIGN_IN_POINTS := None;
     md5_hex := λ s, s; parseXML := parser;
     tzOffset := 8 * 60 * 60 * 1000; fmul := Qmult |}.

Definition fields : Params :=
  <["return_code" := VStr "SUCCESS"]> (<["result_code" := VStr "SUCCESS"]>
  (<["trade_state" := VStr "SUCCESS"]> (<["out_trade_no" := VStr "202401150001"]>
  (<["total_fee" := VStr "10000"]> ∅)))).

Definition callback : Params :=
  <["sign" := VStr (PaymentService.generateSign (env_with (λ _, ∅)) fields
                      (VStr "secret"))]> fields.

(** The same notification with a signature that is not the right one. *)
Definition forged : Params := <["sign" := VStr "0000"]> fields.

Definition env : Env := env_with (λ _, callback).
Definition env_forged : Env := env_with (λ _, forged).

Definition order (st : OrderStatus) (amount : Q) : Order :=
  {| o_id := 1; orderNo := "202401150001"; o_userId := 7; merchantId := 3;
     subtotal := amount; deliveryFee := 0; discount := 0; total := amount;
     payAmount := amount; payMethod := None; payStatus := unpaid;
     payTime := None; status := st; deliveryStatus := dl_pending;
     deliveryTaskId := None; actualDeliveryTime := None;
     cancelReason := None; cancelTime := None; refundReason := None;
     refundTime := None; refundAmount := 0; pointsEarned := 0;
     pointsUsed := 0; couponId := None; couponAmount := 0 |}.

Definition user : User :=
  {| u_id := 7; level := bronze; points := 10; totalPoints := 10;
     totalSpent := 0; lastSignInAt := None; signInCount := 0 |}.

Definition db (o : Order) : Store :=
  {| orders := [o]; users := {[ 7 := user ]}; dishes := ∅;
     pointRecords := []; redis := ∅; gatewayCalls := [] |}.

End Sample.

(** Concrete data for the examples of POST /orders: one merchant, a dish
    with a counted stock, a specification and an addon, a dish with
    unlimited stock, and a dish at 95. *)
Module SampleOrder.

Definition merchant : Merchant := mkMerchant 3 5 200.

Definition merchants : gmap Z MerchantRow :=
  {[ 3 := mkMerchantRow merchant merchant_active ]}.

Definition catalog : gmap Z DishInfo :=
  <[11 := mkDishInfo "牛肉面" dish_active [mkPriceOption "L" 15] [mkPriceOption "egg" 2]]>
  (<[12 := mkDishInfo "豆浆" dish_active [] []]>
  (<[13 := mkDishInfo "套餐" dish_active [] []]> ∅)).

Definition db : Store :=
  set_dishes (<[11 := mkDish 11 12 3 0]> (<[12 := mkDish 12 4 (-1) 0]>
             (<[13 := mkDish 13 95 10 0]> ∅)))
    (Sample.db (Sample.order pending 100)).

Definition address : Address :=
  mkAddress "张三" "13800000000" "浙江" "杭州" "西湖" "文三路 1 号" None None.

Definition body (items : list OrderItem) : OrderRequest :=
  mkOrderRequest 3 items address None None (Some 200).

(** Scenario A: subtotal 95, a coupon, 200 points. *)
Definition scenarioA : OrderRequest :=
  mkOrderRequest 3 [mkOrderItem 13 1 None None None] address None (Some 1) (Some 200).

Definition inRange : Merchant → Q → Q → bool := λ _ _ _, true.

End SampleOrder.

(** ** Vocabulary of the specification

    Predicates and functions used to state the properties.  Where they
    restate a computation (the canonical string of the signature, the
    fixed-width numerals of an order number) they follow the wording of
    the specification, not the code. *)

(** The wording of the specification: a field takes part in the
    signature when its value is not empty, not null (nor undefined) and
    its key is not [sign]; it contributes [key=value&]. *)
Definition signed_field (params : Params) (k : string) : bool :=
  match params !! k with
  | Some v => bool_decide (v ≠ VStr "" ∧ v ≠ VNull ∧ v ≠ VUndef ∧ k ≠ "sign")
  | None => false
  end.

Definition field_text (params : Params) (k : string) : string :=
  match params !! k with
  | Some v => k +:+ "=" +:+ js_to_string v +:+ "&"
  | None => ""
  end.

Definition concat_all (l : list string) : string := foldr String.append "" l.

(** The string to digest, given the keys of [params] in ascending order. *)
Definition canonical_string (sortedKeys : list string) (params : Params)
    (secret : JsVal) : string :=
  concat_all (field_text params <$> filter (λ k, signed_field params k = true) sortedKeys)
  +:+ "key=" +:+ js_to_string secret.

Definition digit_char (d : Z) : ascii := ascii_of_nat (48 + Z.to_nat d).

(** The decimal numeral of [n] on exactly [width] digits. *)
Fixpoint digits (width : nat) (n : Z) : string :=
  match width with
  | O => ""
  | S w => digits w (n `div` 10) +:+ String (digit_char (n `mod` 10)) ""
  end.

Definition is_digit (c : ascii) : bool :=
  (48 <=? nat_of_ascii c)%nat && (nat_of_ascii c <=? 57)%nat.

Fixpoint all_digits (s : string) : bool :=
  match s with
  | "" => true
  | String c s => is_digit c && all_digits s
  end.

(** A payment notification that passes every check of
    [handlePaymentNotify] and names the order [no]. *)
Definition valid_callback (env : Env) (xmlData : string) (no : string) : Prop :=
  let params := parseXML env xmlData in
  prop params "sign" = VStr (PaymentService.generateSign env params (WX_PAY_KEY env))
  ∧ prop params "return_code" = VStr "SUCCESS"
  ∧ prop params "result_code" = VStr "SUCCESS"
  ∧ prop params "out_trade_no" = VStr no.

(** An answer of the gateway to the order query that reports the trade
    as paid. *)
Definition paid_reply (env : Env) (data : string) : Prop :=
  let wxResult := parseXML env data in
  prop wxResult "return_code" = VStr "SUCCESS"
  ∧ prop wxResult "result_code" = VStr "SUCCESS"
  ∧ prop wxResult "trade_state" = VStr "SUCCESS".

(** Stock operations, as a script over the two functions of the [Dish]
    literal. *)
Inductive StockOp :=
  | Reserve (quantity : Z)
  | Release (quantity : Z).

Definition stock_quantity (op : StockOp) : Z :=
  match op with Reserve q | Release q => q end.

Definition run_stock_op (op : StockOp) : M (Dish * Store) unit :=
  match op with
  | Reserve q => Dish.decreaseStock q
  | Release q => Dish.increaseStock q
  end.

(** Run a script; an operation that throws is skipped, as when each
    request of a series is handled on its own. *)
Fixpoint run_stock_ops (ops : list StockOp) (d : Dish) (db : Store) : Dish * Store :=
  match ops with
  | [] => (d, db)
  | op :: ops =>
    let '(_, (d', db')) := run_stock_op op (d, db) in run_stock_ops ops d' db'
  end.

(** A stock value that the column is meant to hold. *)
Definition stock_ok (s : Z) : Prop := s = -1 ∨ 0 ≤ s.

(** Membership levels in ascending order. *)
Definition level_rank (l : Level) : nat :=
  match l with bronze => 0 | silver => 1 | gold => 2 | platinum => 3 end.

(** Points operations on one user instance, as a script over the
    functions of the [User] literal. *)
Inductive PointsOp :=
  | Earn (pts : Z) (reason : string)
  | Spend (pts : Z) (reason : string)
  | SignIn (now : Z).

Definition run_points_op (env : Env) (op : PointsOp) : M (User * Store) unit :=
  match op with
  | Earn pts reason => User.addPoints pts reason
  | Spend pts reason => User.usePoints pts reason
  | SignIn now => User.signIn env now;; mret ()
  end.

(** Run a script; an operation that throws is skipped. *)
Fixpoint run_points_ops (env : Env) (ops : list PointsOp) (u : User) (db : Store)
    : User * Store :=
  match ops with
  | [] => (u, db)
  | op :: ops =>
    let '(_, (u', db')) := run_points_op env op (u, db) in
    run_points_ops env ops u' db'
  end.

(** The sum of the deltas that the ledger holds for a user. *)
Definition ledger_sum (userId : Z) (l : list PointRecord) : Z :=
  foldr (λ r acc, if bool_decide (r_userId r = userId) then r_points r + acc else acc) 0 l.

(** The parts of the store that only the settlement may change. *)
Definition settlement_frame (db db' : Store) : Prop :=
  gatewayCalls db' = gatewayCalls db
  ∧ dishes db' = dishes db
  ∧ (o_id <$> orders db') = (o_id <$> orders db)
  ∧ ∃ new, pointRecords db' = pointRecords db ++ new ∧ (length new ≤ 1)%nat.

(** A refund request that passes every check of the handler: [order] is
    the row with the requested key, it belongs to the caller and is
    completed, the amount is above zero and at most [payAmount], the
    reason has 1 to 200 characters. *)
Definition refundable (db : Store) (userId : Z) (body : RefundRequest)
    (order : Order) : Prop :=
  find (λ r, bool_decide (o_id r = rq_orderId body)) (orders db) = Some order
  ∧ o_userId order = userId
  ∧ status order = completed
  ∧ (0 < rq_refundAmount body)%Q
  ∧ (rq_refundAmount body <= payAmount order)%Q
  ∧ rq_reason body ≠ ""
  ∧ (js_length (rq_reason body) ≤ 200)%nat.

(** The gateway answered the refund request, with SUCCESS in both codes. *)
Definition refund_granted (env : Env) (reply : option string) : bool :=
  match reply with
  | None => false
  | Some data =>
    bool_decide (prop (parseXML env data) "return_code" = VStr "SUCCESS")
    && bool_decide (prop (parseXML env data) "result_code" = VStr "SUCCESS")
  end.
(** * Properties *)

(** Unfolding the monad on a goal. *)
Ltac run :=
  repeat (unfold mbind, mret, M_bind, M_ret, throw, get, put, modify, assign,
          this_, db_modify, call, call_missing, apply_missing, lift_db,
          try_catch in *; cbn in *).

(** Boolean comparisons of rationals as propositions. *)
Ltac qbool :=
  repeat match goal with
  | H : Qle_bool _ _ = true |- _ => apply Qle_bool_iff in H
  | H : Qle_bool _ _ = false |- _ =>
    apply not_true_iff_false in H; rewrite Qle_bool_iff in H
  | |- Qle_bool _ _ = true => apply Qle_bool_iff
  | |- Qle_bool _ _ = false => apply not_true_iff_false; rewrite Qle_bool_iff
  end.

(** ** Saving a user

    The [beforeUpdate] hook may recompute the level; every other column
    is written as the instance has it. *)

Lemma set_level_id (u : User) : set_level (level u) u = u.
Proof. by destruct u. Qed.

Lemma User_save_spec (u : User) (db : Store) :
  ∃ l, User.save (u, db)
       = (Ok (), (set_level l u, set_users (<[u_id u := set_level l u]> (users db)) db)).
Proof.
  unfold User.save, User.beforeUpdate. cbn.
  destruct (User.changed_totalSpent u db).
  - by eexists.
  - exists (level u). by rewrite set_level_id.
Qed.

Arguments User.save : simpl never.

Ltac step_save :=
  match goal with
  | |- context [User.save (?u, ?d)] =>
    let l := fresh "l" in
    let H := fresh "Hsave" in
    destruct (User_save_spec u d) as [l H]; rewrite H; clear H; cbn
  end.

(** ** Creating an order *)

Lemma create_fields (date : JsDate) (random : Q) (values o : Order) (db db' : Store) :
  Order.create date random values db = (Ok o, db') →
  o = set_o_id (o_id o) (set_orderNo (orderNo o) values)
  ∧ (orderNo o ∉ (orderNo <$> orders db))
  ∧ db' = set_orders (orders db ++ [o]) db.
Proof.
  unfold Order.create, Order.beforeCreate. run.
  case_bool_decide as Hdup; [done|]. intros [= <- <-].
  split; [|split; [|done]].
  - case_bool_decide; by destruct values.
  - done.
Qed.

(** ** Payment callback: signature check *)



(** ** Refund request *)

(** C6. A refund request for more than the order's [payAmount] is
    answered with a failure and nothing changes: no request goes to the
    gateway and the order is as before.  A request reaches the gateway
    only for an order whose status is completed and for an amount of at
    most [payAmount]. *)
Theorem refund_amount_guard (env : Env) (user : option Z) (body : RefundRequest)
    (date : JsDate) (random : Q) (nonce : string) (reply : option string)
    (now : Z) (db : Store) :
  (∀ order,
     Order.findByPk (rq_orderId body) db = (Ok (Some order), db) →
     (payAmount order < rq_refundAmount body)%Q →
     ∃ code message,
       PaymentRoutes.post_refund env user body date random nonce reply now db
         = (Ok (mkResponse code (Failure message)), db)
       ∧ code ≠ 200)
  ∧ (∀ resp db',
       PaymentRoutes.post_refund env user body date random nonce reply now db
         = (Ok resp, db') →
       gatewayCalls db' ≠ gatewayCalls db →
       ∃ order,
         Order.findByPk (rq_orderId body) db = (Ok (Some order), db)
         ∧ status order = completed
         ∧ (rq_refundAmount body <= payAmount order)%Q).
Proof.
  split.
  - intros order Hfind Hlt.
    unfold PaymentRoutes.post_refund, Order.findByPk in *. run.
    injection Hfind as Hfind.
    destruct user as [userId|]; [|by eexists _, _].
    destruct (negb (Qle_bool (rq_refundAmount body) 0) && _ && _); cbn;
      [|by eexists _, _].
    rewrite Hfind.
    case_bool_decide; cbn; [by eexists _, _|].
    case_bool_decide; cbn; [by eexists _, _|].
    assert (Qle_bool (rq_refundAmount body) (payAmount order) = false) as ->.
    { apply not_true_is_false. rewrite Qle_bool_iff. by apply Qlt_not_le. }
    by eexists _, _.
  - intros resp db' Hrun Hcalls.
    unfold PaymentRoutes.post_refund, Order.findByPk in *. run.
    destruct user as [userId|]; [|exfalso; by simplify_eq/=].
    destruct (negb (Qle_bool (rq_refundAmount body) 0) && _ && _); cbn in Hrun;
      [|exfalso; by simplify_eq/=].
    destruct (find _ (orders db)) as [order|] eqn:Hfind; cbn in Hrun;
      [|exfalso; by simplify_eq/=].
    exists order. split; [done|].
    case_bool_decide as Howner; cbn in Hrun; [exfalso; by simplify_eq/=|].
    case_bool_decide as Hst; cbn in Hrun; [exfalso; by simplify_eq/=|].
    destruct (Qle_bool (rq_refundAmount body) (payAmount order)) eqn:Hle;
      cbn in Hrun; [|exfalso; by simplify_eq/=].
    split; [done|]. by apply Qle_bool_iff.
Qed.

(** Scenario D: 120 asked against an amount paid of 100 is refused before
    any gateway call; 50 against the same order goes to the gateway. *)
Lemma refund_amount_guard_witness :
  let o := set_payStatus paid (Sample.order completed 100) in
  let db := Sample.db o in
  (∃ code message,
     PaymentRoutes.post_refund Sample.env (Some 7) (mkRefundRequest 1 120 "late")
       (mkJsDate 2024 0 15) 0.5%Q "n0nce" None 1705300000000 db
       = (Ok (mkResponse code (Failure message)), db)
     ∧ code ≠ 200)
  ∧ (∃ order,
       Order.findByPk 1 db = (Ok (Some order), db)
       ∧ status order = completed ∧ (50 <= payAmount order)%Q).
Proof.
  cbn zeta.
  pose (o := set_payStatus paid (Sample.order completed 100)).
  pose (db := Sample.db o).
  split.
  - apply (proj1 (refund_amount_guard Sample.env (Some 7) (mkRefundRequest 1 120 "late")
                    (mkJsDate 2024 0 15) 0.5%Q "n0nce" None 1705300000000 db) o);
      by vm_compute.
  - eapply (proj2 (refund_amount_guard Sample.env (Some 7) (mkRefundRequest 1 50 "late")
                     (mkJsDate 2024 0 15) 0.5%Q "n0nce" (Some "<xml/>") 1705300000000 db)).
    + vm_compute. reflexivity.
    + vm_compute. discriminate.
Defined.

(** ** Gateway signature *)

Lemma append_assoc (a b c : string) : (a +:+ b) +:+ c = a +:+ (b +:+ c).
Proof.
  induction a as [|x a IH]; [done|].
  change (String x ((a +:+ b) +:+ c) = String x (a +:+ b +:+ c)). by f_equal.
Qed.

Lemma append_nil_r (a : string) : a +:+ "" = a.
Proof.
  induction a as [|x a IH]; [done|].
  change (String x (a +:+ "") = String x a). by f_equal.
Qed.

Lemma sign_loop (params : Params) (keys : list string) (acc : string) :
  (∀ k, k ∈ keys → is_Some (params !! k)) →
  foldl (λ signStr key,
           if strict_ne_empty (prop params key)
              && loose_ne_null (prop params key)
              && bool_decide (key ≠ "sign")
           then signStr +:+ key +:+ "=" +:+ js_to_string (prop params key) +:+ "&"
           else signStr) acc keys
  = acc +:+ concat_all (field_text params <$>
                          filter (λ k, signed_field params k = true) keys).
Proof.
  revert acc. induction keys as [|k keys IH]; intros acc Hkeys.
  { cbn. by rewrite append_nil_r. }
  rewrite filter_cons. cbn [foldl].
  rewrite IH by (intros; apply Hkeys; by right).
  destruct (Hkeys k) as [v Hv]; [by left|].
  assert (Hp : prop params k = v) by (unfold prop; by rewrite Hv).
  assert (Hsf : signed_field params k
                = bool_decide (v ≠ VStr "" ∧ v ≠ VNull ∧ v ≠ VUndef ∧ k ≠ "sign"))
    by (unfold signed_field; by rewrite Hv).
  rewrite Hp, Hsf. unfold strict_ne_empty.
  destruct (decide (v ≠ VStr "" ∧ v ≠ VNull ∧ v ≠ VUndef ∧ k ≠ "sign")) as [Hin|Hout].
  - destruct Hin as (H1 & H2 & H3 & H4).
    rewrite (bool_decide_eq_true_2 (v ≠ VStr "")) by done.
    rewrite (bool_decide_eq_true_2 (k ≠ "sign")) by done.
    assert (loose_ne_null v = true) as -> by by destruct v.
    rewrite (bool_decide_eq_true_2 (_ ∧ _)) by done.
    rewrite decide_True by done. cbn [andb fmap list_fmap concat_all foldr].
    unfold field_text at 2. rewrite Hv. by rewrite !append_assoc.
  - rewrite (bool_decide_eq_false_2 (_ ∧ _)) by done.
    rewrite decide_False by done.
    assert (bool_decide (v ≠ VStr "") && loose_ne_null v && bool_decide (k ≠ "sign")
            = false) as ->; [|done].
    apply not_true_is_false. rewrite !andb_true_iff, !bool_decide_eq_true.
    intros [[H1 H2] H3]. apply Hout. by destruct v.
Qed.

(** C5. Let [sortedKeys] be the keys of the parameter object in
    ascending order (a sorted list without repetition whose elements are
    the domain of the object).  For every secret the computed signature is the
    uppercase hexadecimal MD5 digest of the concatenation of [key=value&]
    over the keys whose value is neither empty nor null and whose key is
    not [sign], followed by [key=<secret>]; and [verifySign] accepts a
    [sign] value exactly when it is that string computed with the
    configured secret. *)
Theorem generateSign_canonical (env : Env) (params : Params) (sortedKeys : list string) :
  Sorted String.le sortedKeys →
  NoDup sortedKeys →
  dom params = list_to_set sortedKeys →
  (∀ secret,
     PaymentService.generateSign env params secret
     = toUpperCase (md5_hex env (canonical_string sortedKeys params secret)))
  ∧ (∀ sign,
       PaymentService.verifySign env params sign = true
       ↔ sign = VStr (toUpperCase (md5_hex env
                        (canonical_string sortedKeys params (WX_PAY_KEY env))))).
Proof.
  intros Hsorted Hnodup Hdom.
  assert (Hkeys : ∀ k, k ∈ sortedKeys ↔ is_Some (params !! k)).
  { intros k. by rewrite <-elem_of_dom, Hdom, elem_of_list_to_set. }
  assert (Hsort : merge_sort String.le (map_to_list params).*1 = sortedKeys).
  { apply (Sorted_unique String.le).
    - apply (Sorted_merge_sort String.le).
    - done.
    - rewrite merge_sort_Permutation. apply NoDup_Permutation.
      + apply NoDup_fst_map_to_list.
      + done.
      + intros k. rewrite Hkeys, list_elem_of_fmap. split.
        * intros [[k' v] [-> Hin%elem_of_map_to_list]]. by eexists.
        * intros [v Hv]. exists (k, v). by rewrite elem_of_map_to_list. }
  assert (Hgen : ∀ secret,
     PaymentService.generateSign env params secret
     = toUpperCase (md5_hex env (canonical_string sortedKeys params secret))).
  { intros secret. unfold PaymentService.generateSign, canonical_string.
    cbn zeta. rewrite Hsort, sign_loop by (intros k; apply Hkeys). done. }
  split; [done|].
  intros sign. unfold PaymentService.verifySign. cbn zeta.
  rewrite bool_decide_eq_true, Hgen. split; congruence.
Qed.

Lemma generateSign_canonical_witness :
  let keys := ["out_trade_no"; "result_code"; "return_code"; "sign";
               "total_fee"; "trade_state"] in
  Sorted String.le keys ∧ NoDup keys
  ∧ dom Sample.callback = list_to_set keys
  ∧ PaymentService.generateSign Sample.env Sample.callback (VStr "secret")
    = "OUT_TRADE_NO=202401150001&RESULT_CODE=SUCCESS&RETURN_CODE=SUCCESS&TOTAL_FEE=10000&TRADE_STATE=SUCCESS&KEY=SECRET"
  ∧ PaymentService.verifySign Sample.env Sample.callback
      (prop Sample.callback "sign") = true.
Proof.
  cbn zeta.
  pose (keys := ["out_trade_no"; "result_code"; "return_code"; "sign";
                 "total_fee"; "trade_state"]).
  assert (Hsorted : Sorted String.le keys) by (apply (bool_decide_unpack _); by vm_compute).
  assert (Hnodup : NoDup keys) by (apply (bool_decide_unpack _); by vm_compute).
  assert (Hdom : dom Sample.callback = list_to_set keys)
    by (apply (bool_decide_unpack _); by vm_compute).
  destruct (generateSign_canonical Sample.env Sample.callback keys Hsorted Hnodup Hdom)
    as [Hgen Hver].
  split; [done|]. split; [done|]. split; [done|]. split.
  - rewrite Hgen. by vm_compute.
  - apply Hver. by vm_compute.
Defined.

(** ** Order numbers *)

Lemma range_check (P : Z → bool) (lo len : Z) :
  forallb P (seqZ lo len) = true → ∀ n, lo ≤ n < lo + len → P n = true.
Proof.
  intros Hall n Hn. rewrite forallb_forall in Hall.
  apply Hall, list_elem_of_In, elem_of_seqZ. lia.
Qed.

Lemma pad4_digits (n : Z) :
  0 ≤ n < 10000 → padStart 4 "0" (pretty n) = digits 4 n.
Proof.
  intros Hn.
  pose proof (range_check (λ n, bool_decide (padStart 4 "0" (pretty n) = digits 4 n)) 0 10000) as Hall.
  eapply bool_decide_eq_true_1, Hall; [by vm_compute|lia].
Qed.

Lemma pad2_digits (n : Z) :
  0 ≤ n < 100 → padStart 2 "0" (pretty n) = digits 2 n.
Proof.
  intros Hn.
  pose proof (range_check (λ n, bool_decide (padStart 2 "0" (pretty n) = digits 2 n)) 0 100) as Hall.
  eapply bool_decide_eq_true_1, Hall; [by vm_compute|lia].
Qed.

Lemma year_digits (n : Z) : 1000 ≤ n < 10000 → pretty n = digits 4 n.
Proof.
  intros Hn.
  pose proof (range_check (λ n, bool_decide (pretty n = digits 4 n)) 1000 9000) as Hall.
  eapply bool_decide_eq_true_1, Hall; [by vm_compute|lia].
Qed.

Lemma all_digits_app (a b : string) :
  all_digits (a +:+ b) = all_digits a && all_digits b.
Proof.
  induction a as [|c a IH]; [done|].
  change (is_digit c && all_digits (a +:+ b) = is_digit c && all_digits a && all_digits b).
  by rewrite IH, andb_assoc.
Qed.

Lemma length_app (a b : string) :
  String.length (a +:+ b) = (String.length a + String.length b)%nat.
Proof.
  induction a as [|c a IH]; [done|].
  change (S (String.length (a +:+ b)) = S (String.length a + String.length b)).
  by rewrite IH.
Qed.

Lemma digits_all_digits (w : nat) (n : Z) : all_digits (digits w n) = true.
Proof.
  revert n. induction w as [|w IH]; intros n; [done|].
  cbn [digits]. rewrite all_digits_app, IH. cbn.
  rewrite andb_true_r. unfold is_digit, digit_char.
  assert (0 ≤ n `mod` 10 < 10) by (apply Z.mod_pos_bound; lia).
  rewrite nat_ascii_embedding by lia.
  apply andb_true_iff. split; apply Nat.leb_le; lia.
Qed.

Lemma length_digits (w : nat) (n : Z) : String.length (digits w n) = w.
Proof.
  revert n. induction w as [|w IH]; intros n; [done|].
  cbn [digits]. rewrite length_app, IH. cbn. lia.
Qed.

Lemma random4_range (random : Q) :
  (0 <= random)%Q → (random < 1)%Q → 0 ≤ Qfloor (random * 10000) < 10000.
Proof.
  intros H0 H1. split.
  - change 0 with (Qfloor 0). apply Qfloor_resp_le.
    apply Qmult_le_0_compat; [done|]. by vm_compute.
  - apply Z.lt_nge. intros Hge.
    assert (Hle : (inject_Z 10000 <= random * 10000)%Q).
    { eapply Qle_trans; [|apply Qfloor_le]. by rewrite <-Zle_Qle. }
    assert (Hlt : (random * 10000 < 1 * 10000)%Q).
    { apply Qmult_lt_compat_r; [by vm_compute|done]. }
    apply (Qlt_irrefl (inject_Z 10000)).
    eapply Qle_lt_trans; [exact Hle|]. exact Hlt.
Qed.




(** * The claims that rest on functions of a prototype literal

    The code at the input of each claim.  The requests are answered by
    the [catch] block of the handler, because the first call of a
    function that the model file meant to be a method throws.  Where a
    statement names such a function directly ([Dish.decreaseStock],
    [Order.cancel], [Order.paySuccess], [User.signIn]), it says what the
    function of the literal computes on the same input, which is what
    the call was meant to do. *)






(** ** Rows of the orders table *)

Arguments Qfloor : simpl never.
Arguments Order.save_row : simpl never.
Arguments PaymentService.generateSign : simpl never.
Arguments prop : simpl never.

Lemma save_row_ids (o : Order) (rows : list Order) :
  o_id <$> Order.save_row o rows = o_id <$> rows.
Proof.
  unfold Order.save_row. induction rows as [|r rows IH]; [done|].
  rewrite !fmap_cons, IH. f_equal. by case_bool_decide.
Qed.

Lemma find_pk_save_row (o : Order) (rows : list Order) :
  o_id o ∈ (o_id <$> rows) →
  find (λ r, bool_decide (o_id r = o_id o)) (Order.save_row o rows) = Some o.
Proof.
  unfold Order.save_row. induction rows as [|r rows IH].
  - by intros ?%elem_of_nil.
  - rewrite !fmap_cons, elem_of_cons. intros Hin. cbn [find].
    destruct (decide (o_id r = o_id o)) as [Heq|Hne].
    + rewrite (bool_decide_eq_true_2 _ Heq). by rewrite bool_decide_eq_true_2.
    + rewrite !(bool_decide_eq_false_2 _ Hne). apply IH.
      destruct Hin as [Hin|Hin]; [congruence|done].
Qed.

Lemma next_id_fresh (rows : list Order) (r : Order) :
  r ∈ rows → o_id r < Order.next_id rows.
Proof.
  unfold Order.next_id. induction rows as [|x rows IH]; intros Hin.
  - by apply elem_of_nil in Hin.
  - cbn. apply elem_of_cons in Hin as [->|Hin]; [lia|].
    specialize (IH Hin). lia.
Qed.

Lemma find_app_fresh (p : Order → bool) (rows : list Order) (o : Order) :
  (∀ r, r ∈ rows → p r = false) → p o = true → find p (rows ++ [o]) = Some o.
Proof.
  intros Hrows Ho. induction rows as [|r rows IH]; cbn.
  - by rewrite Ho.
  - rewrite (Hrows r) by left. apply IH. intros; apply Hrows; by right.
Qed.

Lemma findByOrderNo_str (no : string) (db : Store) :
  Order.findByOrderNo (VStr no) db
  = (Ok (find (λ r, bool_decide (VStr (orderNo r) = VStr no)) (orders db)), db).
Proof. done. Qed.
(** * Further properties of the modelled code *)

(** ** Creating and finding an order *)

(** X5. An order that [Order.create] returns is appended to the table
    under a key that no row had; it is then found both by its key and by
    its order number; a table with pairwise distinct keys stays so; and an
    order number given by the caller is kept. *)
Theorem order_create_lookup (date : JsDate) (random : Q) (values o : Order)
    (db db' : Store) :
  Order.create date random values db = (Ok o, db') →
  orders db' = orders db ++ [o]
  ∧ (o_id o ∉ (o_id <$> orders db))
  ∧ (NoDup (o_id <$> orders db) → NoDup (o_id <$> orders db'))
  ∧ Order.findByPk (o_id o) db' = (Ok (Some o), db')
  ∧ Order.findByOrderNo (VStr (orderNo o)) db' = (Ok (Some o), db')
  ∧ (orderNo values ≠ "" → orderNo o = orderNo values).
Proof.
  intros Hc. pose proof Hc as (Hfields & Hfresh & ->)%create_fields.
  assert (Hid : o_id o = Order.next_id (orders db)).
  { unfold Order.create in Hc. run. case_bool_decide; [done|].
    by injection Hc as <- _. }
  assert (Hkey : o_id o ∉ (o_id <$> orders db)).
  { intros (r & Hr & Hin)%list_elem_of_fmap.
    apply next_id_fresh in Hin. lia. }
  split; [done|]. split; [done|]. split; [|split; [|split]].
  - intros Hnd. cbn. rewrite fmap_app. apply NoDup_app. split; [done|]. split.
    + intros x Hx Hx'%list_elem_of_singleton. by subst.
    + apply NoDup_singleton.
  - unfold Order.findByPk. run. do 2 f_equal. apply find_app_fresh.
    + intros r Hr. apply bool_decide_eq_false_2. intros Heq. apply Hkey.
      apply list_elem_of_fmap. by exists r.
    + by apply bool_decide_eq_true_2.
  - rewrite findByOrderNo_str. cbn. do 2 f_equal. apply find_app_fresh.
    + intros r Hr. apply bool_decide_eq_false_2. intros [= Heq]. apply Hfresh.
      apply list_elem_of_fmap. by exists r.
    + by apply bool_decide_eq_true_2.
  - intros Hno. unfold Order.create, Order.beforeCreate in Hc. run.
    rewrite (bool_decide_eq_false_2 (orderNo values = "")) in Hc by done.
    case_bool_decide; [done|]. by injection Hc as <- _.
Qed.

Lemma order_create_lookup_witness :
  ∃ o db',
    Order.create (mkJsDate 2024 0 15) 0.12345
      (OrderRoutes.orderValues 7 (mkMerchant 1 5 200) 95
         (OrderRoutes.pricing 5 95 (Some 1) (Some 200)) (Some 1) (Some 200) "")
      (Sample.db (Sample.order pending 100))
      = (Ok o, db')
    ∧ Order.findByOrderNo (VStr "202401151234") db' = (Ok (Some o), db')
    ∧ o_id o = 2.
Proof.
  eexists _, _. split; [vm_compute; reflexivity|].
  match goal with
  | |- Order.findByOrderNo _ ?db' = (Ok (Some ?o), _) ∧ _ =>
    pose proof (order_create_lookup (mkJsDate 2024 0 15) 0.12345%Q
                  (OrderRoutes.orderValues 7 (mkMerchant 1 5 200) 95
                     (OrderRoutes.pricing 5 95 (Some 1) (Some 200)) (Some 1) (Some 200) "")
                  o (Sample.db (Sample.order pending 100)) db' eq_refl)
      as (_ & _ & _ & _ & Hfind & _)
  end.
  split; [exact Hfind|reflexivity].
Defined.

(** ** The stock functions of the [Dish] literal *)

Lemma decreaseStock_run (d : Dish) (db : Store) (q : Z) :
  Dish.decreaseStock q (d, db)
  = if bool_decide (stock d = -1) then (Ok (), (d, db))
    else if bool_decide (stock d < q) then (Throw InsufficientStock, (d, db))
    else (Ok (), (set_stock (stock d - q) d,
                  set_dishes (<[d_id d := set_stock (stock d - q) d]> (dishes db)) db)).
Proof.
  unfold Dish.decreaseStock, Dish.save. run.
  repeat case_bool_decide; done.
Qed.

Lemma increaseStock_run (d : Dish) (db : Store) (q : Z) :
  Dish.increaseStock q (d, db)
  = if bool_decide (stock d = -1) then (Ok (), (d, db))
    else (Ok (), (set_stock (stock d + q) d,
                  set_dishes (<[d_id d := set_stock (stock d + q) d]> (dishes db)) db)).
Proof.
  unfold Dish.increaseStock, Dish.save. run.
  repeat case_bool_decide; done.
Qed.

Lemma run_stock_op_ok (op : StockOp) (d : Dish) (db : Store) :
  stock_ok (stock d) → 0 ≤ stock_quantity op →
  stock_ok (stock (fst (snd (run_stock_op op (d, db)))))
  ∧ (stock (fst (snd (run_stock_op op (d, db)))) = -1 ↔ stock d = -1)
  ∧ d_id (fst (snd (run_stock_op op (d, db)))) = d_id d.
Proof.
  intros Hok Hq. unfold stock_ok in *.
  destruct op as [q|q]; cbn [run_stock_op stock_quantity] in *;
    rewrite ?decreaseStock_run, ?increaseStock_run;
    repeat case_bool_decide; cbn; (split; [|split]); try done; lia.
Qed.

(** X7. Whatever series of reservations and releases with quantities
    that are not negative is run against a dish, refused reservations
    included, a counted stock never becomes negative, a counted stock
    never becomes unlimited and an unlimited one never becomes counted. *)
Theorem stock_never_negative (ops : list StockOp) (d : Dish) (db : Store) :
  stock_ok (stock d) →
  Forall (λ op, 0 ≤ stock_quantity op) ops →
  let d' := fst (run_stock_ops ops d db) in
  stock_ok (stock d') ∧ (stock d' = -1 ↔ stock d = -1).
Proof.
  intros Hok Hops. cbn zeta. revert d db Hok.
  induction Hops as [|op ops Hq Hops IH]; intros d db Hok; cbn [run_stock_ops fst].
  - done.
  - destruct (run_stock_op_ok op d db Hok Hq) as (Hok1 & Hiff & _).
    destruct (run_stock_op op (d, db)) as [r [d1 db1]]. cbn in *.
    destruct (IH d1 db1 Hok1) as [Hok2 Hiff2]. split; [done|].
    by rewrite Hiff2.
Qed.

Lemma stock_never_negative_witness :
  let d := mkDish 1 12 3 0 in
  let ops := [Reserve 2; Reserve 2; Release 2; Reserve 3] in
  let d' := fst (run_stock_ops ops d (Sample.db (Sample.order pending 100))) in
  stock_ok (stock d) ∧ Forall (λ op, 0 ≤ stock_quantity op) ops
  ∧ stock_ok (stock d') ∧ (stock d' = -1 ↔ stock d = -1).
Proof.
  cbn zeta.
  assert (H1 : stock_ok (stock (mkDish 1 12 3 0))) by (right; cbn; lia).
  assert (H2 : Forall (λ op, 0 ≤ stock_quantity op)
                 [Reserve 2; Reserve 2; Release 2; Reserve 3])
    by (repeat constructor; cbn; lia).
  split; [exact H1|]. split; [exact H2|].
  exact (stock_never_negative _ _ (Sample.db (Sample.order pending 100)) H1 H2).
Defined.

(** ** Levels, and the points functions of the [User] literal *)

Lemma calculateUserLevel_cases (x : Q) :
  match User.calculateUserLevel x with
  | platinum => (5000 <= x)%Q
  | gold => (1000 <= x)%Q ∧ (x < 5000)%Q
  | silver => (500 <= x)%Q ∧ (x < 1000)%Q
  | bronze => (x < 500)%Q
  end.
Proof.
  unfold User.calculateUserLevel.
  destruct (Qle_bool 5000 x) eqn:H1; [qbool; done|].
  destruct (Qle_bool 1000 x) eqn:H2; [qbool; split; [done|lra]|].
  destruct (Qle_bool 500 x) eqn:H3; qbool; [split; [done|lra]|lra].
Qed.

(** X8. The level is monotone in the cumulative spend: spending more
    never gives a lower level, and equal amounts give the same level. *)
Theorem calculateUserLevel_monotone (a b : Q) :
  (a <= b)%Q →
  (level_rank (User.calculateUserLevel a) ≤ level_rank (User.calculateUserLevel b))%nat
  ∧ ((a == b)%Q → User.calculateUserLevel a = User.calculateUserLevel b).
Proof.
  intros Hab.
  pose proof (calculateUserLevel_cases a) as Ha.
  pose proof (calculateUserLevel_cases b) as Hb.
  split.
  - destruct (User.calculateUserLevel a), (User.calculateUserLevel b);
      cbn; try lia; exfalso; lra.
  - intros Heq.
    destruct (User.calculateUserLevel a), (User.calculateUserLevel b);
      try done; exfalso; lra.
Qed.

Lemma calculateUserLevel_monotone_witness :
  (499.99 <= 500)%Q
  ∧ (level_rank (User.calculateUserLevel 499.99)
     ≤ level_rank (User.calculateUserLevel 500))%nat
  ∧ User.calculateUserLevel 499.99 = bronze
  ∧ User.calculateUserLevel 500 = silver.
Proof.
  assert (H : (499.99 <= 500)%Q) by (by vm_compute).
  split; [exact H|]. split; [|by vm_compute].
  exact (proj1 (calculateUserLevel_monotone 499.99%Q 500%Q H)).
Defined.

Lemma ledger_sum_app (userId : Z) (l : list PointRecord) (r : PointRecord) :
  ledger_sum userId (l ++ [r])
  = ledger_sum userId l + (if bool_decide (r_userId r = userId) then r_points r else 0).
Proof.
  unfold ledger_sum. induction l as [|x l IH]; cbn.
  - case_bool_decide; lia.
  - rewrite IH. repeat case_bool_decide; lia.
Qed.

(** What one points operation does to the balance and to the ledger. *)
Lemma run_points_op_effect (env : Env) (op : PointsOp) (u : User) (db : Store) :
  ∃ r u' db',
    run_points_op env op (u, db) = (r, (u', db'))
    ∧ u_id u' = u_id u
    ∧ (points u' = points u ∧ pointRecords db' = pointRecords db
       ∨ ∃ row, pointRecords db' = pointRecords db ++ [row]
                ∧ r_userId row = u_id u
                ∧ r_points row = points u' - points u
                ∧ r_balance row = points u').
Proof.
  destruct op as [pts reason|pts reason|now]; cbn [run_points_op].
  - unfold User.addPoints, PointRecord.create. run. step_save.
    eexists _, _, _. split; [reflexivity|]. cbn. split; [done|]. right.
    eexists. split; [reflexivity|]. cbn. repeat split; lia.
  - unfold User.usePoints, PointRecord.create. run. case_bool_decide.
    + eexists _, _, _. split; [reflexivity|]. split; [done|]. by left.
    + cbn. step_save.
      eexists _, _, _. split; [reflexivity|]. cbn. split; [done|]. right.
      eexists. split; [reflexivity|]. cbn. repeat split; lia.
  - unfold User.signIn, User.addPoints, PointRecord.create. run.
    case_bool_decide.
    + eexists _, _, _. split; [reflexivity|]. split; [done|]. by left.
    + case_bool_decide; cbn; do 2 step_save;
        (eexists _, _, _; split; [reflexivity|]); cbn; (split; [done|]); right;
        (eexists; split; [reflexivity|]); cbn; repeat split; lia.
Qed.

(** X12. The balance and the ledger move together: after any series of
    [addPoints], [usePoints] and [signIn] calls on a user instance,
    refused calls included, the balance of the instance minus the sum of
    the user's ledger deltas is what it was before, and the ledger sums of
    the other users are unchanged. *)
Theorem points_ledger_in_step (env : Env) (ops : list PointsOp) (u : User) (db : Store) :
  let u' := fst (run_points_ops env ops u db) in
  let db' := snd (run_points_ops env ops u db) in
  u_id u' = u_id u
  ∧ points u' - ledger_sum (u_id u) (pointRecords db')
    = points u - ledger_sum (u_id u) (pointRecords db)
  ∧ ∀ other, other ≠ u_id u →
      ledger_sum other (pointRecords db') = ledger_sum other (pointRecords db).
Proof.
  cbn zeta. revert u db. induction ops as [|op ops IH]; intros u db.
  - done.
  - cbn [run_points_ops].
    destruct (run_points_op_effect env op u db)
      as (r & u1 & db1 & Hrun & Hid & Heff).
    rewrite Hrun. destruct (IH u1 db1) as (Hid2 & Hbal & Hother).
    rewrite Hid in *. split; [done|].
    destruct Heff as [[Hp Hl]|(row & Hl & Hrow & Hdelta & _)].
    + rewrite Hl in *. split; [lia|done].
    + rewrite Hl, ledger_sum_app in *. rewrite Hrow in *.
      rewrite bool_decide_eq_true_2 in Hbal by done. split; [lia|].
      intros other Hne. rewrite (Hother other Hne), ledger_sum_app, Hrow.
      rewrite bool_decide_eq_false_2 by congruence. lia.
Qed.

(** ** Signature: what enters it *)

Lemma StronglySorted_filter_keys (P : string → Prop) `{∀ k, Decision (P k)}
    (l : list string) :
  StronglySorted String.le l → StronglySorted String.le (filter P l).
Proof.
  induction 1 as [|k l Hl IH Hk]; [constructor|].
  rewrite filter_cons. case_decide; [|done].
  constructor; [done|].
  apply Forall_forall. intros x [_ Hx]%list_elem_of_filter.
  rewrite Forall_forall in Hk. by apply Hk.
Qed.

Lemma sorted_keys_spec (params : Params) :
  let keys := merge_sort String.le (map_to_list params).*1 in
  StronglySorted String.le keys ∧ NoDup keys
  ∧ ∀ k, k ∈ keys ↔ is_Some (params !! k).
Proof.
  cbn zeta. split; [|split].
  - apply (StronglySorted_merge_sort String.le).
  - rewrite merge_sort_Permutation. apply NoDup_fst_map_to_list.
  - intros k. rewrite merge_sort_Permutation, list_elem_of_fmap. split.
    + intros [[k' v] [-> Hin%elem_of_map_to_list]]. by eexists.
    + intros [v Hv]. exists (k, v). by rewrite elem_of_map_to_list.
Qed.

Lemma signed_field_is_Some (params : Params) (k : string) :
  signed_field params k = true → is_Some (params !! k).
Proof. unfold signed_field. destruct (params !! k); [by eexists|done]. Qed.

Lemma generateSign_signed_fields (env : Env) (p p' : Params) (key : JsVal) :
  (∀ k, signed_field p k = signed_field p' k) →
  (∀ k, signed_field p k = true → p !! k = p' !! k) →
  PaymentService.generateSign env p key = PaymentService.generateSign env p' key.
Proof.
  intros Hsame Hval. unfold PaymentService.generateSign. cbn zeta.
  destruct (sorted_keys_spec p) as (Hs & Hn & Hk).
  destruct (sorted_keys_spec p') as (Hs' & Hn' & Hk').
  rewrite !sign_loop by (intros k; by rewrite ?Hk, ?Hk').
  assert (Hfilter :
    filter (λ k, signed_field p k = true) (merge_sort String.le (map_to_list p).*1)
    = filter (λ k, signed_field p' k = true) (merge_sort String.le (map_to_list p').*1)).
  { apply (StronglySorted_unique String.le).
    - by apply StronglySorted_filter_keys.
    - by apply StronglySorted_filter_keys.
    - apply NoDup_Permutation; [by apply NoDup_filter..|].
      intros k. rewrite !list_elem_of_filter, Hk, Hk', <-Hsame. split.
      + intros [Hf _]. split; [done|]. apply signed_field_is_Some. by rewrite <-Hsame.
      + intros [Hf _]. split; [done|]. by apply signed_field_is_Some. }
  rewrite <-Hfilter.
  assert (Htext :
    field_text p <$> filter (λ k, signed_field p k = true)
                       (merge_sort String.le (map_to_list p).*1)
    = field_text p' <$> filter (λ k, signed_field p k = true)
                          (merge_sort String.le (map_to_list p).*1)).
  { apply list_fmap_ext.
    intros i k Hik. apply list_elem_of_lookup_2, list_elem_of_filter in Hik as [Hf _].
    unfold field_text. by rewrite (Hval k Hf). }
  by rewrite Htext.
Qed.

(** X15. The signature is a function of the signed fields only: two
    parameter objects that have the same fields with a value that is
    neither empty nor null under a key other than [sign] get the same
    signature.  In particular a [sign] field, whatever its value, and a
    field whose value is the empty string, [null] or [undefined] do not
    enter the signature. *)
Theorem generateSign_ignores_unsigned (env : Env) (p : Params) (key : JsVal) :
  (∀ p',
     (∀ k, signed_field p k = signed_field p' k) →
     (∀ k, signed_field p k = true → p !! k = p' !! k) →
     PaymentService.generateSign env p key = PaymentService.generateSign env p' key)
  ∧ (∀ v, PaymentService.generateSign env (<["sign" := v]> p) key
          = PaymentService.generateSign env (delete "sign" p) key)
  ∧ (∀ k v, p !! k = None → v = VStr "" ∨ v = VNull ∨ v = VUndef →
            PaymentService.generateSign env (<[k := v]> p) key
            = PaymentService.generateSign env p key).
Proof.
  split; [intros p'; apply generateSign_signed_fields|]. split.
  - intros v. apply generateSign_signed_fields.
    + intros k. unfold signed_field. destruct (decide (k = "sign")) as [->|Hk].
      * rewrite lookup_insert_eq, lookup_delete_eq.
        apply bool_decide_eq_false_2. by intros (_ & _ & _ & ?).
      * by rewrite lookup_insert_ne, lookup_delete_ne.
    + intros k. unfold signed_field. destruct (decide (k = "sign")) as [->|Hk].
      * rewrite lookup_insert_eq. intros Hf.
        apply bool_decide_eq_true_1 in Hf. by destruct Hf as (_ & _ & _ & ?).
      * by rewrite lookup_insert_ne, lookup_delete_ne.
  - intros k v Hnone Hv. apply generateSign_signed_fields.
    + intros k'. unfold signed_field. destruct (decide (k' = k)) as [->|Hk].
      * rewrite lookup_insert_eq, Hnone.
        apply bool_decide_eq_false_2. intros (H1 & H2 & H3 & _).
        by destruct Hv as [->|[->| ->]].
      * by rewrite lookup_insert_ne.
    + intros k'. unfold signed_field. destruct (decide (k' = k)) as [->|Hk].
      * rewrite lookup_insert_eq. intros Hf.
        apply bool_decide_eq_true_1 in Hf. destruct Hf as (H1 & H2 & H3 & _).
        by destruct Hv as [->|[->| ->]].
      * by rewrite lookup_insert_ne.
Qed.

Lemma generateSign_ignores_unsigned_witness :
  Sample.fields !! "attach" = None
  ∧ PaymentService.generateSign Sample.env (<["attach" := VStr ""]> Sample.fields)
      (VStr "secret")
    = PaymentService.generateSign Sample.env Sample.fields (VStr "secret").
Proof.
  assert (H : Sample.fields !! "attach" = None) by (by vm_compute).
  split; [exact H|].
  apply (proj2 (proj2 (generateSign_ignores_unsigned Sample.env Sample.fields
                         (VStr "secret"))) "attach" (VStr "") H).
  by left.
Defined.

Lemma verify_own_sign (env : Env) (p : Params) :
  let signed := <["sign" := VStr (PaymentService.generateSign env p (WX_PAY_KEY env))]> p in
  PaymentService.verifySign env signed (prop signed "sign") = true.
Proof.
  cbn zeta. unfold PaymentService.verifySign, prop. cbn zeta.
  rewrite lookup_insert_eq. cbn. apply bool_decide_eq_true_2. f_equal.
  transitivity (PaymentService.generateSign env (delete "sign" p) (WX_PAY_KEY env)).
  - apply generateSign_signed_fields.
    + intros k. unfold signed_field. destruct (decide (k = "sign")) as [->|Hk].
      * rewrite lookup_insert_eq, lookup_delete_eq.
        apply bool_decide_eq_false_2. by intros (_ & _ & _ & ?).
      * by rewrite lookup_insert_ne, lookup_delete_ne.
    + intros k. unfold signed_field. destruct (decide (k = "sign")) as [->|Hk].
      * rewrite lookup_insert_eq. intros Hf.
        apply bool_decide_eq_true_1 in Hf. by destruct Hf as (_ & _ & _ & ?).
      * by rewrite lookup_insert_ne, lookup_delete_ne.
  - symmetry. apply generateSign_signed_fields.
    + intros k. unfold signed_field. destruct (decide (k = "sign")) as [->|Hk].
      * rewrite lookup_delete_eq. destruct (p !! "sign"); [|done].
        apply bool_decide_eq_false_2. by intros (_ & _ & _ & ?).
      * by rewrite lookup_delete_ne.
    + intros k. unfold signed_field. destruct (decide (k = "sign")) as [->|Hk].
      * destruct (p !! "sign"); [|done]. intros Hf.
        apply bool_decide_eq_true_1 in Hf. by destruct Hf as (_ & _ & _ & ?).
      * by rewrite lookup_delete_ne.
Qed.

(** X16. Signing and verifying agree: the order query and the refund
    request are posted to the gateway once each, and the parameter object
    posted carries the order number (and, for a refund, each fee as
    [Math.round] gives it on the product with 100) with a [sign] field
    that [verifySign] accepts. *)
Theorem outbound_requests_verify (env : Env) (nonce : string) (reply : option string)
    (db : Store) :
  (∀ orderNo, ∃ r db' params,
     PaymentService.queryOrder env orderNo nonce reply db = (r, db')
     ∧ gatewayCalls db' = gatewayCalls db ++ [OrderQuery params]
     ∧ prop params "out_trade_no" = VStr orderNo
     ∧ PaymentService.verifySign env params (prop params "sign") = true)
  ∧ (∀ refundData, ∃ r db' params,
       PaymentService.refund env refundData nonce reply db = (r, db')
       ∧ gatewayCalls db' = gatewayCalls db ++ [RefundCall params]
       ∧ prop params "out_trade_no" = VStr (rd_orderNo refundData)
       ∧ prop params "refund_fee" = VNum (js_round (fmul env (rd_refundFee refundData) 100))
       ∧ prop params "total_fee" = VNum (js_round (fmul env (rd_totalFee refundData) 100))
       ∧ PaymentService.verifySign env params (prop params "sign") = true).
Proof.
  split.
  - intros orderNo. unfold PaymentService.queryOrder, PaymentService.post. run.
    destruct reply; cbn; eexists _, _, _; (split; [reflexivity|]); cbn;
      (split; [reflexivity|]); (split; [by vm_compute|]); apply verify_own_sign.
  - intros refundData. unfold PaymentService.refund, PaymentService.post. run.
    destruct reply; cbn; eexists _, _, _; (split; [reflexivity|]); cbn;
      (split; [reflexivity|]);
      (split; [unfold prop; by rewrite lookup_insert_ne, lookup_insert_ne,
                 lookup_insert_ne, lookup_insert_ne, lookup_insert_ne,
                 lookup_insert_eq by done|]);
      (split; [unfold prop; by rewrite lookup_insert_ne, lookup_insert_ne,
                 lookup_insert_eq by done|]);
      (split; [unfold prop; by rewrite lookup_insert_ne, lookup_insert_ne,
                 lookup_insert_ne, lookup_insert_eq by done|]);
      apply verify_own_sign.
Qed.
(** ** Payment callback: the cache window and the refusals *)

Lemma handlePaymentNotify_run (env : Env) (xmlData no : string) (now : Z) (db : Store) :
  valid_callback env xmlData no →
  PaymentService.handlePaymentNotify env xmlData now db
  = match redis db !! ("payment_notify:" +:+ no) with
    | Some (expiry, v) =>
      if bool_decide (now < expiry) then
        (Ok {| nr_success := true; nr_orderNo := VUndef; nr_transactionId := VUndef;
               nr_openid := VUndef; nr_attach := VUndef |}, db)
      else
        (Ok {| nr_success := true; nr_orderNo := VStr no;
               nr_transactionId := prop (parseXML env xmlData) "transaction_id";
               nr_openid := prop (parseXML env xmlData) "openid";
               nr_attach := prop (parseXML env xmlData) "attach" |},
         set_redis (<["payment_notify:" +:+ no := (now + 300 * 1000, parseXML env xmlData)]>
                      (redis db)) db)
    | None =>
      (Ok {| nr_success := true; nr_orderNo := VStr no;
             nr_transactionId := prop (parseXML env xmlData) "transaction_id";
             nr_openid := prop (parseXML env xmlData) "openid";
             nr_attach := prop (parseXML env xmlData) "attach" |},
       set_redis (<["payment_notify:" +:+ no := (now + 300 * 1000, parseXML env xmlData)]>
                    (redis db)) db)
    end.
Proof.
  intros (Hsign & Hrc & Hres & Hno).
  unfold PaymentService.handlePaymentNotify, PaymentService.verifySign,
    PaymentService.redis_get, PaymentService.redis_setex. run.
  rewrite Hsign, Hrc, Hres, Hno.
  rewrite !bool_decide_eq_true_2 by done. cbn.
  rewrite (bool_decide_eq_false_2 (VStr "SUCCESS" ≠ VStr "SUCCESS"))
    by (intros Hne; by apply Hne). cbn.
  destruct (redis db !! ("payment_notify:" +:+ no)) as [[expiry v]|]; cbn; [|done].
  destruct (bool_decide (now < expiry)); cbn; done.
Qed.





(** ** Payment callback: what it never does *)

Lemma handlePaymentNotify_frame (env : Env) (xmlData : string) (now : Z) (db : Store) :
  ∃ res db',
    PaymentService.handlePaymentNotify env xmlData now db = (res, db')
    ∧ orders db' = orders db ∧ users db' = users db ∧ dishes db' = dishes db
    ∧ pointRecords db' = pointRecords db ∧ gatewayCalls db' = gatewayCalls db.
Proof.
  unfold PaymentService.handlePaymentNotify, PaymentService.redis_get,
    PaymentService.redis_setex. run.
  destruct (negb _); [by eexists _, _|].
  destruct (bool_decide (prop _ "return_code" ≠ _)); [by eexists _, _|].
  destruct (bool_decide (prop _ "result_code" ≠ _)); [by eexists _, _|].
  cbn. destruct (bool_decide (is_Some _)); cbn; by eexists _, _.
Qed.

(** The callback changes the cache at most. *)
Lemma post_notify_tables (env : Env) (xmlData : string) (now : Z) (db : Store) :
  ∃ ok db',
    PaymentRoutes.post_notify env xmlData now db
      = (Ok (mkResponse 200 (if ok : bool then ackSuccess else ackFail)), db')
    ∧ orders db' = orders db ∧ users db' = users db ∧ dishes db' = dishes db
    ∧ pointRecords db' = pointRecords db ∧ gatewayCalls db' = gatewayCalls db.
Proof.
  unfold PaymentRoutes.post_notify. run.
  destruct (handlePaymentNotify_frame env xmlData now db)
    as (res & db0 & Hrun & Ho & Hu & Hd & Hl & Hg).
  rewrite Hrun.
  destruct res as [r|e]; cbn; [|by exists false, db0].
  destruct (nr_success r); cbn; [|by exists true, db0].
  unfold Order.findByOrderNo.
  destruct (nr_orderNo r); run; try (by exists false, db0);
    (destruct (find _ (orders db0)) as [o|]; cbn; [|by exists true, db0];
     destruct (bool_decide (payStatus o = unpaid)); cbn;
     [by exists false, db0|by exists true, db0]).
Qed.

(** ** Payment status poll *)

Lemma queryOrder_run (env : Env) (no nonce : string) (reply : option string) (db : Store) :
  ∃ params,
    params !! "out_trade_no" = Some (VStr no)
    ∧ PaymentService.queryOrder env no nonce reply db
      = (match reply with
         | None => Throw GatewayUnavailable
         | Some data => Ok (parseXML env data)
         end,
         set_gatewayCalls (gatewayCalls db ++ [OrderQuery params]) db).
Proof.
  unfold PaymentService.queryOrder, PaymentService.post. run.
  eexists. split; [|by destruct reply].
  by rewrite lookup_insert_ne, lookup_insert_ne, lookup_insert_eq.
Qed.

(** What the poll does, case by case. *)
Lemma get_status_run (env : Env) (user : option Z) (orderNoParam nonce : string)
    (reply : option string) (now : Z) (db : Store) :
  ∃ resp,
    match user, find (λ r, bool_decide (VStr (orderNo r) = VStr orderNoParam)) (orders db) with
    | Some userId, Some o =>
      if bool_decide (o_userId o = userId ∧ payStatus o ≠ paid) then
        ∃ params,
          params !! "out_trade_no" = Some (VStr orderNoParam)
          ∧ PaymentRoutes.get_status env user orderNoParam nonce reply now db
            = (Ok resp, set_gatewayCalls (gatewayCalls db ++ [OrderQuery params]) db)
      else PaymentRoutes.get_status env user orderNoParam nonce reply now db = (Ok resp, db)
    | _, _ => PaymentRoutes.get_status env user orderNoParam nonce reply now db = (Ok resp, db)
    end.
Proof.
  unfold PaymentRoutes.get_status, Order.findByOrderNo. run.
  destruct user as [userId|]; [|by eexists].
  destruct (find _ (orders db)) as [o|]; cbn; [|by eexists].
  destruct (decide (o_userId o = userId)) as [Hown|Hown].
  2:{ rewrite (bool_decide_eq_true_2 (o_userId o ≠ userId)) by done.
      rewrite bool_decide_eq_false_2 by (by intros [? _]). by eexists. }
  rewrite (bool_decide_eq_false_2 (o_userId o ≠ userId)) by (intros Hne; by apply Hne).
  destruct (decide (payStatus o = paid)) as [Hpaid|Hpaid].
  { rewrite (bool_decide_eq_true_2 (payStatus o = paid)) by done.
    rewrite bool_decide_eq_false_2 by (intros [_ Hne]; by apply Hne). by eexists. }
  rewrite (bool_decide_eq_false_2 (payStatus o = paid)) by done.
  rewrite (bool_decide_eq_true_2 (o_userId o = userId ∧ _)) by done.
  destruct (queryOrder_run env orderNoParam nonce reply db) as (params & Hno & ->).
  destruct reply as [data|]; cbn; [|eexists; by exists params].
  destruct (bool_decide (prop _ "return_code" = _) && _); cbn;
    [|eexists; by exists params].
  destruct (bool_decide (prop _ "trade_state" = _)); cbn; eexists; by exists params.
Qed.

Lemma get_status_tables (env : Env) (user : option Z) (orderNoParam nonce : string)
    (reply : option string) (now : Z) (db : Store) :
  ∃ resp db',
    PaymentRoutes.get_status env user orderNoParam nonce reply now db = (Ok resp, db')
    ∧ orders db' = orders db ∧ users db' = users db ∧ dishes db' = dishes db
    ∧ pointRecords db' = pointRecords db ∧ redis db' = redis db.
Proof.
  destruct (get_status_run env user orderNoParam nonce reply now db) as [resp Hrun].
  destruct user as [userId|]; [|by exists resp, db].
  destruct (find _ (orders db)) as [o|]; [|by exists resp, db].
  destruct (bool_decide _); [|by exists resp, db].
  destruct Hrun as (params & _ & ->). by eexists _, _.
Qed.




(** ** Settlement *)

(** ** Refund request: outcomes *)

Lemma refund_run (env : Env) (rd : RefundData) (nonce : string)
    (reply : option string) (db : Store) :
  ∃ params,
    (params !! "out_trade_no" = Some (VStr (rd_orderNo rd))
     ∧ params !! "refund_fee" = Some (VNum (js_round (fmul env (rd_refundFee rd) 100)))
     ∧ params !! "total_fee" = Some (VNum (js_round (fmul env (rd_totalFee rd) 100))))
    ∧ PaymentService.refund env rd nonce reply db
      = (match reply with
         | None => Throw GatewayUnavailable
         | Some data => Ok (parseXML env data)
         end,
         set_gatewayCalls (gatewayCalls db ++ [RefundCall params]) db).
Proof.
  unfold PaymentService.refund, PaymentService.post. run.
  eexists. split; [|by destruct reply].
  repeat split.
Qed.

(** The request passes every check of the handler. *)
Lemma post_refund_checked (env : Env) (userId : Z) (body : RefundRequest)
    (date : JsDate) (random : Q) (nonce : string) (reply : option string)
    (now : Z) (db : Store) (order : Order) :
  refundable db userId body order →
  ∃ params,
    (params !! "out_trade_no" = Some (VStr (orderNo order))
     ∧ params !! "refund_fee" = Some (VNum (js_round (fmul env (rq_refundAmount body) 100)))
     ∧ params !! "total_fee" = Some (VNum (js_round (fmul env (payAmount order) 100))))
    ∧ PaymentRoutes.post_refund env (Some userId) body date random nonce reply now db
      = let db1 := set_gatewayCalls (gatewayCalls db ++ [RefundCall params]) db in
        if refund_granted env reply then
          let order' :=
            set_refundAmount (rq_refundAmount body)
              (set_refundTime (Some now)
                 (set_refundReason (Some (rq_reason body))
                    (set_status refunded order))) in
          (Ok (mkResponse 200
                 (RefundAccepted (PaymentService.generateRefundNo date random)
                    (rq_refundAmount body) (Some now))),
           set_orders (Order.save_row order' (orders db1)) db1)
        else (Ok (mkResponse 500 (Failure "申请退款失败")), db1).
Proof.
  intros (Hfind & Hown & Hst & Hpos & Hle & Hreason & Hlen).
  unfold PaymentRoutes.post_refund, Order.findByPk, refund_granted. run.
  assert (Qle_bool (rq_refundAmount body) 0 = false) as ->.
  { apply not_true_is_false. rewrite Qle_bool_iff. by apply Qlt_not_le. }
  rewrite (bool_decide_eq_true_2 (rq_reason body ≠ "")) by done.
  rewrite (bool_decide_eq_true_2 (js_length (rq_reason body) ≤ 200)%nat) by done.
  cbn. rewrite Hfind. cbn.
  rewrite (bool_decide_eq_false_2 (o_userId order ≠ userId)) by (intros Hne; by apply Hne).
  rewrite (bool_decide_eq_false_2 (status order ≠ completed)) by (intros Hne; by apply Hne).
  assert (Qle_bool (rq_refundAmount body) (payAmount order) = true) as ->
    by (by apply Qle_bool_iff).
  cbn.
  match goal with
  | |- context [PaymentService.refund env ?rd nonce reply db] =>
    destruct (refund_run env rd nonce reply db) as (params & Hparams & ->)
  end.
  exists params. split; [exact Hparams|].
  destruct reply as [data|]; cbn; [|done].
  destruct (bool_decide (prop _ "return_code" = _) && _); cbn; [|done].
  unfold Order.save. run. done.
Qed.





(** ** Refund request: at most one refund, and what a refund never does *)

Lemma post_refund_200 (env : Env) (user : option Z) (body : RefundRequest)
    (date : JsDate) (random : Q) (nonce : string) (reply : option string)
    (now : Z) (db : Store) (resp : Response) (db' : Store) :
  PaymentRoutes.post_refund env user body date random nonce reply now db = (Ok resp, db') →
  res_status resp = 200 →
  ∃ userId order,
    user = Some userId ∧ refundable db userId body order
    ∧ refund_granted env reply = true.
Proof.
  intros Hrun Hcode.
  unfold PaymentRoutes.post_refund, Order.findByPk in Hrun. run.
  destruct user as [userId|]; [|exfalso; by simplify_eq/=].
  destruct (Qle_bool (rq_refundAmount body) 0) eqn:Hpos; cbn in Hrun;
    [exfalso; by simplify_eq/=|].
  destruct (decide (rq_reason body ≠ "")) as [Hreason|Hreason].
  2:{ rewrite (bool_decide_eq_false_2 _ Hreason) in Hrun. exfalso. by simplify_eq/=. }
  rewrite (bool_decide_eq_true_2 _ Hreason) in Hrun. cbn in Hrun.
  destruct (decide (js_length (rq_reason body) ≤ 200)%nat) as [Hlen|Hlen].
  2:{ rewrite (bool_decide_eq_false_2 _ Hlen) in Hrun. exfalso. by simplify_eq/=. }
  rewrite (bool_decide_eq_true_2 _ Hlen) in Hrun. cbn in Hrun.
  destruct (find _ (orders db)) as [order|] eqn:Hfind; cbn in Hrun;
    [|exfalso; by simplify_eq/=].
  destruct (decide (o_userId order ≠ userId)) as [Hown|Hown].
  { rewrite (bool_decide_eq_true_2 _ Hown) in Hrun. exfalso. by simplify_eq/=. }
  rewrite (bool_decide_eq_false_2 _ Hown) in Hrun. cbn in Hrun.
  destruct (decide (status order ≠ completed)) as [Hst|Hst].
  { rewrite (bool_decide_eq_true_2 _ Hst) in Hrun. exfalso. by simplify_eq/=. }
  rewrite (bool_decide_eq_false_2 _ Hst) in Hrun. cbn in Hrun.
  destruct (Qle_bool (rq_refundAmount body) (payAmount order)) eqn:Hle; cbn in Hrun;
    [|exfalso; by simplify_eq/=].
  exists userId, order. split; [done|]. split.
  - qbool. repeat split; try done.
    + by destruct (decide (o_userId order = userId)) as [|Hne]; [|destruct (Hown Hne)].
    + by destruct (decide (status order = completed)) as [|Hne]; [|destruct (Hst Hne)].
    + by apply Qnot_le_lt.
  - match type of Hrun with
    | context [PaymentService.refund env ?rd nonce reply db] =>
      destruct (refund_run env rd nonce reply db) as (params & _ & Hcall);
      rewrite Hcall in Hrun
    end.
    unfold refund_granted.
    destruct reply as [data|]; cbn in Hrun; [|exfalso; by simplify_eq/=].
    destruct (bool_decide (prop _ "return_code" = _) && _); cbn in Hrun; [done|].
    exfalso. by simplify_eq/=.
Qed.

Lemma post_refund_not_completed (env : Env) (user : option Z) (body : RefundRequest)
    (date : JsDate) (random : Q) (nonce : string) (reply : option string)
    (now : Z) (db : Store) (order : Order) :
  find (λ r, bool_decide (o_id r = rq_orderId body)) (orders db) = Some order →
  status order ≠ completed →
  ∃ code message,
    PaymentRoutes.post_refund env user body date random nonce reply now db
      = (Ok (mkResponse code (Failure message)), db)
    ∧ code ≠ 200.
Proof.
  intros Hfind Hst. unfold PaymentRoutes.post_refund, Order.findByPk. run.
  destruct user as [userId|]; [|by eexists _, _].
  destruct (negb (Qle_bool (rq_refundAmount body) 0) && _ && _); cbn;
    [|by eexists _, _].
  rewrite Hfind. cbn.
  destruct (bool_decide (o_userId order ≠ userId)); cbn; [by eexists _, _|].
  rewrite (bool_decide_eq_true_2 _ Hst). cbn. by eexists _, _.
Qed.



(** ** POST /orders *)

(** The first loop ends with an answer 400, or at the first item whose
    dish is there and active, where [dish.hasStock] is called. *)
Lemma priceItems_run (catalog : gmap Z DishInfo) (items : list OrderItem)
    (subtotal : Q) (db : Store) :
  match items with
  | [] => OrderRoutes.priceItems catalog items subtotal db = (Ok (inr subtotal), db)
  | item :: _ =>
    match dishes db !! it_dishId item, catalog !! it_dishId item with
    | Some dish, Some info =>
      if bool_decide (di_status info = dish_active) then
        OrderRoutes.priceItems catalog items subtotal db = (Throw TypeError, db)
      else
        ∃ m, OrderRoutes.priceItems catalog items subtotal db
             = (Ok (inl (mkResponse 400 (Failure m))), db)
    | _, _ =>
      ∃ m, OrderRoutes.priceItems catalog items subtotal db
           = (Ok (inl (mkResponse 400 (Failure m))), db)
    end
  end.
Proof.
  destruct items as [|item items]; [done|].
  cbn [OrderRoutes.priceItems]. unfold OrderRoutes.findDish, Dish.findByPk. run.
  destruct (dishes db !! it_dishId item) as [dish|]; [|by eexists].
  destruct (catalog !! it_dishId item) as [info|]; [|by eexists].
  destruct (decide (di_status info = dish_active)) as [Hact|Hact].
  - rewrite (bool_decide_eq_true_2 _ Hact).
    by rewrite (bool_decide_eq_false_2 (di_status info ≠ dish_active))
      by (intros Hne; by apply Hne).
  - rewrite (bool_decide_eq_false_2 _ Hact).
    rewrite (bool_decide_eq_true_2 (di_status info ≠ dish_active)) by done.
    by eexists.
Qed.

(** No request gets past the first call of a function of a literal. *)
Lemma post_orders_run (user : option Z) (body : OrderRequest)
    (merchants : gmap Z MerchantRow) (isInDeliveryRange : Merchant → Q → Q → bool)
    (catalog : gmap Z DishInfo) (date : JsDate) (random : Q) (db : Store) :
  ∃ code m,
    OrderRoutes.post_orders user body merchants isInDeliveryRange catalog date random db
      = (Ok (mkResponse code (Failure m)), db)
    ∧ code ∈ [400; 401; 500].
Proof.
  unfold OrderRoutes.post_orders. run.
  destruct user as [userId|]; [|eexists _, _; split; [reflexivity|set_solver]].
  destruct (negb (OrderRoutes.validate body)); cbn;
    [eexists _, _; split; [reflexivity|set_solver]|].
  destruct (merchants !! rq_merchantId body) as [merchant|]; cbn;
    [|eexists _, _; split; [reflexivity|set_solver]].
  destruct (bool_decide (mr_status merchant ≠ merchant_active)); cbn;
    [eexists _, _; split; [reflexivity|set_solver]|].
  destruct (OrderRoutes.has_coordinates _); cbn;
    [eexists _, _; split; [reflexivity|set_solver]|].
  pose proof (priceItems_run catalog (rq_items body) 0%Q db) as Hpriced.
  destruct (rq_items body) as [|item items].
  { rewrite Hpriced. cbn. eexists _, _. split; [reflexivity|set_solver]. }
  destruct (dishes db !! it_dishId item) as [dish|].
  2:{ destruct Hpriced as [m ->]. cbn. eexists _, _. split; [reflexivity|set_solver]. }
  destruct (catalog !! it_dishId item) as [info|].
  2:{ destruct Hpriced as [m ->]. cbn. eexists _, _. split; [reflexivity|set_solver]. }
  destruct (bool_decide (di_status info = dish_active)).
  - rewrite Hpriced. cbn. eexists _, _. split; [reflexivity|set_solver].
  - destruct Hpriced as [m ->]. cbn. eexists _, _. split; [reflexivity|set_solver].
Qed.




(** ** POST /orders/:id/cancel *)


(** ** POST /users/sign-in *)


